(** * dr_ensenso: the Ensenso stereo camera driver

    A shallow embedding of [dr::Ensenso] (src/dr_ensenso/src/ensenso.cpp).
    The NxLib property tree is a finite map from item paths to leaf values,
    the camera firmware is an opaque command executor, and every member
    function is a computation in a state-and-exception monad over the tree
    and a log of the writes and commands the driver performed. *)

From Stdlib Require Import ZArith List.
From Stdlib Require QArith.
From stdpp Require Import gmap strings list fin_maps.

Local Open Scope Z_scope.


(** ** Item paths *)

(** [NxLibItem::operator[]] takes either a name or an index. *)
Inductive key :=
  | Name (s : string)
  | Idx (n : nat).

#[global] Instance key_eq_dec : EqDecision key.
Proof. solve_decision. Defined.

#[global] Instance key_countable : Countable key.
Proof.
  refine (inj_countable'
            (λ k, match k with Name s => inl s | Idx n => inr n end)
            (λ x, match x with inl s => Name s | inr n => Idx n end) _).
  by intros [].
Defined.

Abbreviation path := (list key).

(** ** NxLib item, value and command names (nxLibConstants.h) *)

Definition itmSerialNumber : string := "SerialNumber".
Definition itmParameters : string := "Parameters".
Definition itmCapture : string := "Capture".
Definition itmFlexView : string := "FlexView".
Definition itmFrontLight : string := "FrontLight".
Definition itmProjector : string := "Projector".
Definition itmCameras : string := "Cameras".
Definition itmTimeout : string := "Timeout".
Definition itmTriggered : string := "Triggered".
Definition itmRetrieved : string := "Retrieved".
Definition itmUseDisparityMapAreaOfInterest : string := "UseDisparityMapAreaOfInterest".
Definition itmDisparityMap : string := "DisparityMap".
Definition itmAreaOfInterest : string := "AreaOfInterest".
Definition itmLeftTop : string := "LeftTop".
Definition itmRightBottom : string := "RightBottom".
Definition itmDecodeData : string := "DecodeData".
Definition itmPatternPose : string := "PatternPose".
Definition itmLink : string := "Link".
Definition itmTarget : string := "Target".
Definition itmSetup : string := "Setup".
Definition itmTransformations : string := "Transformations".
Definition itmIterations : string := "Iterations".
Definition itmReprojectionError : string := "ReprojectionError".
Definition itmDefinedPose : string := "DefinedPose".
Definition itmCalibration : string := "Calibration".
Definition valMoving : string := "Moving".
Definition valFixed : string := "Fixed".

Definition cmdTrigger : string := "Trigger".
Definition cmdCapture : string := "Capture".
Definition cmdRetrieve : string := "Retrieve".
Definition cmdDiscardPatterns : string := "DiscardPatterns".
Definition cmdCollectPattern : string := "CollectPattern".
Definition cmdEstimatePatternPose : string := "EstimatePatternPose".
Definition cmdCalibrateHandEye : string := "CalibrateHandEye".
Definition cmdCalibrateWorkspace : string := "CalibrateWorkspace".
Definition cmdStoreCalibration : string := "StoreCalibration".

(** ** Machine integers *)

(** [int] is 32 bits wide; arithmetic results are reduced to that range. *)
Definition wrap_int (z : Z) : Z := (z + 2 ^ 31) mod 2 ^ 32 - 2 ^ 31.

(** The conversion [int(timeout)] of an [unsigned int]. *)
Definition int_of_unsigned (u : Z) : Z := wrap_int (u mod 2 ^ 32).

(** ** Rigid transforms (Eigen::Isometry3d) *)

(** [double] is kept abstract: the driver only multiplies translations by
    the literals [1000] and [0.001] and forms inverses and products. *)
Class Scalar (F : Type) := {
  s_add : F → F → F;
  s_mul : F → F → F;
  s_neg : F → F;
  s_1000 : F;
  s_0_001 : F
}.

Record Vector3 (F : Type) := mkVec { vx : F; vy : F; vz : F }.
Arguments mkVec {F} _ _ _.
Arguments vx {F} _.
Arguments vy {F} _.
Arguments vz {F} _.

Record Isometry3d (F : Type) := mkIso {
  row0 : Vector3 F;
  row1 : Vector3 F;
  row2 : Vector3 F;
  translation : Vector3 F
}.
Arguments mkIso {F} _ _ _ _.
Arguments row0 {F} _.
Arguments row1 {F} _.
Arguments row2 {F} _.
Arguments translation {F} _.

Section Eigen.
Context {F : Type} `{Scalar F}.

Definition dot (a b : Vector3 F) : F :=
  s_add (s_add (s_mul (vx a) (vx b)) (s_mul (vy a) (vy b))) (s_mul (vz a) (vz b)).

Definition vadd (a b : Vector3 F) : Vector3 F :=
  mkVec (s_add (vx a) (vx b)) (s_add (vy a) (vy b)) (s_add (vz a) (vz b)).

Definition vneg (a : Vector3 F) : Vector3 F :=
  mkVec (s_neg (vx a)) (s_neg (vy a)) (s_neg (vz a)).

(** [v *= c] *)
Definition vscale (c : F) (a : Vector3 F) : Vector3 F :=
  mkVec (s_mul (vx a) c) (s_mul (vy a) c) (s_mul (vz a) c).

Definition col0 (p : Isometry3d F) := mkVec (vx (row0 p)) (vx (row1 p)) (vx (row2 p)).
Definition col1 (p : Isometry3d F) := mkVec (vy (row0 p)) (vy (row1 p)) (vy (row2 p)).
Definition col2 (p : Isometry3d F) := mkVec (vz (row0 p)) (vz (row1 p)) (vz (row2 p)).

(** The linear part applied to a vector. *)
Definition rotate (p : Isometry3d F) (v : Vector3 F) : Vector3 F :=
  mkVec (dot (row0 p) v) (dot (row1 p) v) (dot (row2 p) v).

(** [p.translation() *= c] *)
Definition scale_translation (c : F) (p : Isometry3d F) : Isometry3d F :=
  mkIso (row0 p) (row1 p) (row2 p) (vscale c (translation p)).

(** [p.inverse()] of an isometry: transposed rotation, and the
    translation carried back through it and negated. *)
Definition inverse (p : Isometry3d F) : Isometry3d F :=
  let rt := mkIso (col0 p) (col1 p) (col2 p) (translation p) in
  mkIso (col0 p) (col1 p) (col2 p) (vneg (rotate rt (translation p))).

(** [a * b] *)
Definition compose (a b : Isometry3d F) : Isometry3d F :=
  mkIso (mkVec (dot (row0 a) (col0 b)) (dot (row0 a) (col1 b)) (dot (row0 a) (col2 b)))
        (mkVec (dot (row1 a) (col0 b)) (dot (row1 a) (col1 b)) (dot (row1 a) (col2 b)))
        (mkVec (dot (row2 a) (col0 b)) (dot (row2 a) (col1 b)) (dot (row2 a) (col2 b)))
        (vadd (rotate a (translation b)) (translation a)).
End Eigen.

(** ** The property tree *)

(** The leaves of the tree. A transformation node (its [Rotation] and
    [Translation] children, which eigen.hpp reads and writes as a whole)
    is one [VPose] at the path of the node; the named children the driver
    addresses itself, such as [Link/Target], are entries of their own. *)
Inductive value (F : Type) :=
  | VBool (b : bool)
  | VInt (z : Z)
  | VDouble (x : F)
  | VStr (s : string)
  | VPose (p : Isometry3d F).
Arguments VBool {F} _.
Arguments VInt {F} _.
Arguments VDouble {F} _.
Arguments VStr {F} _.
Arguments VPose {F} _.

(** What the driver did to the device, in order: a write to a tree item,
    the erasure of a subtree, or a command together with its parameters
    and the result tree the device answered with ([None]: the command
    failed). *)
Inductive event (F : Type) :=
  | EvSet (p : path) (v : value F)
  | EvErase (p : path)
  | EvExec (name : string) (params : gmap path (value F)) (result : option (gmap path (value F))).
Arguments EvSet {F} _ _.
Arguments EvErase {F} _.
Arguments EvExec {F} _ _ _.

Record World (F : Type) := mkWorld {
  tree : gmap path (value F);
  log : list (event F)
}.
Arguments mkWorld {F} _ _.
Arguments tree {F} _.
Arguments log {F} _.

(** ** Exceptions and the driver monad *)

Inductive exn := NxError | NxCommandError.

Inductive res (A : Type) :=
  | Ok (a : A)
  | Throw (e : exn).
Arguments Ok {A} _.
Arguments Throw {A} _.

Definition Nx (F A : Type) : Type := World F → res A * World F.

Definition ret {F A} (a : A) : Nx F A := λ w, (Ok a, w).

Definition bind {F A B} (m : Nx F A) (k : A → Nx F B) : Nx F B :=
  λ w, match m w with
       | (Ok a, w') => k a w'
       | (Throw e, w') => (Throw e, w')
       end.

Definition throw {F A} (e : exn) : Nx F A := λ w, (Throw e, w).

(** [try { body } catch (NxError const &) { handler }] *)
Definition catch_NxError {F A} (body handler : Nx F A) : Nx F A :=
  λ w, match body w with
       | (Throw NxError, w') => handler w'
       | r => r
       end.

Declare Scope nx_scope.
Delimit Scope nx_scope with nx.
Notation "x ← y ; z" := (bind y (λ x, z))
  (at level 20, y at level 100, z at level 200, only parsing) : nx_scope.
Notation "y ;; z" := (bind y (λ _, z))
  (at level 100, z at level 200, only parsing, right associativity) : nx_scope.

(** ** cv::Rect *)

Record Rect := mkRect { rx : Z; ry : Z; rwidth : Z; rheight : Z }.

Definition area (r : Rect) : Z := wrap_int (rwidth r * rheight r).
Definition tl (r : Rect) : Z * Z := (rx r, ry r).
Definition br (r : Rect) : Z * Z := (wrap_int (rx r + rwidth r), wrap_int (ry r + rheight r)).

(** ** The driver *)

(** The members of [dr::Ensenso]: items are handles into the tree, that is
    paths. *)
Record Ensenso := mkEnsenso {
  root : path;
  ensenso_camera : path;
  monocular_camera : option path
}.

Record CalibrationResult (F : Type) := mkCalibrationResult {
  camera_pose : Isometry3d F;
  pattern_pose : Isometry3d F;
  iterations : Z;
  reprojection_error : F
}.
Arguments mkCalibrationResult {F} _ _ _ _.
Arguments camera_pose {F} _.
Arguments pattern_pose {F} _.
Arguments iterations {F} _.
Arguments reprojection_error {F} _.

Record NxLibCommand (F : Type) := mkCommand {
  cmd_name : string;
  parameters : gmap path (value F)
}.
Arguments mkCommand {F} _ _.
Arguments cmd_name {F} _.
Arguments parameters {F} _.

Section Driver.
Context {F : Type} `{Scalar F}.

Local Abbreviation tree_t := (gmap path (value F)).

(** The camera firmware behind [NxLibCommand::execute]: from the command
    name, its parameters and the current tree to the result tree (or a
    failure) and the tree the command leaves behind. *)
Variable device : string → tree_t → tree_t → option tree_t * tree_t.

Local Open Scope nx_scope.

(** *** Typed access (util.hpp, eigen.hpp) *)

(** Modelled from the spec: util.hpp is not part of the sources;
    [get<T>(path)] fails when the item is missing or holds another type.
    One reader per type [T] the driver asks for. *)
Definition as_bool (t : tree_t) (p : path) : res bool :=
  match t !! p with Some (VBool b) => Ok b | _ => Throw NxError end.

Definition as_int (t : tree_t) (p : path) : res Z :=
  match t !! p with Some (VInt z) => Ok z | _ => Throw NxError end.

Definition as_double (t : tree_t) (p : path) : res F :=
  match t !! p with Some (VDouble x) => Ok x | _ => Throw NxError end.

Definition as_string (t : tree_t) (p : path) : res string :=
  match t !! p with Some (VStr s) => Ok s | _ => Throw NxError end.

Definition as_pose (t : tree_t) (p : path) : res (Isometry3d F) :=
  match t !! p with Some (VPose x) => Ok x | _ => Throw NxError end.

Definition lift {A} (r : res A) : Nx F A := λ w, (r, w).

(** [getNx<T>(item)] on an item of the global tree. *)
Definition getNx {A} (as_T : tree_t → path → res A) (p : path) : Nx F A :=
  λ w, (as_T (tree w) p, w).

(** [toEigenIsometry(item)] *)
Definition toEigenIsometry (p : path) : Nx F (Isometry3d F) := getNx as_pose p.

(** Modelled from the spec: [set<T>(path, value)] of util.hpp, on an
    item of the global tree. *)
Definition setNx (p : path) (v : value F) : Nx F unit :=
  λ w, (Ok tt, mkWorld (<[p := v]> (tree w)) (log w ++ [EvSet p v])).

(** [item.exists()] *)
Definition exists_ (p : path) : Nx F bool :=
  λ w, (Ok (bool_decide (map_Exists (λ q _, p `prefix_of` q) (tree w))), w).

(** [item.erase()] removes the item with everything below it. *)
Definition erase (p : path) : Nx F unit :=
  λ w, (Ok tt, mkWorld (filter (λ kv, ¬ p `prefix_of` kv.1) (tree w))
                       (log w ++ [EvErase p])).

(** [NxLibCommand command(name)] and [setNx(command.parameters()[..], v)] *)
Definition new_command (name : string) : NxLibCommand F := mkCommand name ∅.

Definition set_parameter (c : NxLibCommand F) (p : path) (v : value F) : NxLibCommand F :=
  mkCommand (cmd_name c) (<[p := v]> (parameters c)).

(** Modelled from the spec: [executeNx(command)] of util.hpp runs the
    command on the device and throws when it fails; the value is the
    tree [command.result()]. *)
Definition executeNx (c : NxLibCommand F) : Nx F tree_t :=
  λ w, let '(r, t') := device (cmd_name c) (parameters c) (tree w) in
       let w' := mkWorld t' (log w ++ [EvExec (cmd_name c) (parameters c) r]) in
       match r with
       | Some result => (Ok result, w')
       | None => (Throw NxCommandError, w')
       end.

(** *** Member functions *)

Definition serialNumber (e : Ensenso) : Nx F string :=
  getNx as_string (ensenso_camera e ++ [Name itmSerialNumber]).

(** [monocular_camera.get()]; only reached where the optional is set. *)
Definition monocular_get (e : Ensenso) : Nx F path :=
  match monocular_camera e with
  | Some m => ret m
  | None => throw NxError
  end.

Definition monocularSerialNumber (e : Ensenso) : Nx F string :=
  match monocular_camera e with
  | Some m => getNx as_string (m ++ [Name itmSerialNumber])
  | None => ret ""%string
  end.

Definition flexView (e : Ensenso) : Nx F Z :=
  catch_NxError
    (getNx as_int (ensenso_camera e ++ [Name itmParameters; Name itmCapture; Name itmFlexView]))
    (ret (-1)).

Definition setFlexView (e : Ensenso) (v : Z) : Nx F unit :=
  setNx (ensenso_camera e ++ [Name itmParameters; Name itmCapture; Name itmFlexView]) (VInt v).

Definition setFrontLight (e : Ensenso) (state : bool) : Nx F unit :=
  setNx (ensenso_camera e ++ [Name itmParameters; Name itmCapture; Name itmFrontLight]) (VBool state).

Definition setProjector (e : Ensenso) (state : bool) : Nx F unit :=
  setNx (ensenso_camera e ++ [Name itmParameters; Name itmCapture; Name itmProjector]) (VBool state).

Definition trigger (e : Ensenso) (stereo monocular : bool) : Nx F bool :=
  let monocular := monocular && bool_decide (is_Some (monocular_camera e)) in
  let command := new_command cmdTrigger in
  command ← (if stereo
             then s ← serialNumber e;
                  ret (set_parameter command [Name itmCameras; Idx 0] (VStr s))
             else ret command);
  command ← (if monocular
             then m ← monocular_get e;
                  s ← getNx as_string (m ++ [Name itmSerialNumber]);
                  ret (set_parameter command
                         [Name itmCameras; Idx (if stereo then 1 else 0)] (VStr s))
             else ret command);
  result ← executeNx command;
  triggered ← (if stereo
               then s ← serialNumber e;
                    lift (as_bool result [Name s; Name itmTriggered])
               else ret true);
  if negb triggered then ret false else
  triggered ← (if monocular
               then s ← monocularSerialNumber e;
                    lift (as_bool result [Name s; Name itmTriggered])
               else ret true);
  if negb triggered then ret false else
  ret true.

Definition retrieve (e : Ensenso) (trigger : bool) (timeout : Z) (stereo monocular : bool)
  : Nx F bool :=
  let monocular := monocular && bool_decide (is_Some (monocular_camera e)) in
  if negb stereo && negb monocular then ret true else
  let command := new_command (if trigger then cmdCapture else cmdRetrieve) in
  let command := set_parameter command [Name itmTimeout] (VInt (int_of_unsigned timeout)) in
  command ← (if stereo
             then s ← serialNumber e;
                  ret (set_parameter command [Name itmCameras; Idx 0] (VStr s))
             else ret command);
  command ← (if monocular
             then m ← monocular_get e;
                  s ← getNx as_string (m ++ [Name itmSerialNumber]);
                  ret (set_parameter command
                         [Name itmCameras; Idx (if stereo then 1 else 0)] (VStr s))
             else ret command);
  result ← executeNx command;
  retrieved ← (if stereo
               then s ← serialNumber e;
                    lift (as_bool result [Name s; Name itmRetrieved])
               else ret true);
  if negb retrieved then ret false else
  retrieved ← (if monocular
               then s ← monocularSerialNumber e;
                    lift (as_bool result [Name s; Name itmRetrieved])
               else ret true);
  if negb retrieved then ret false else
  ret true.

Definition setRegionOfInterest (e : Ensenso) (roi : Rect) : Nx F unit :=
  let aoi := ensenso_camera e ++ [Name itmParameters; Name itmDisparityMap; Name itmAreaOfInterest] in
  let use_aoi := ensenso_camera e ++
                 [Name itmParameters; Name itmCapture; Name itmUseDisparityMapAreaOfInterest] in
  if area roi =? 0 then
    setNx use_aoi (VBool false);;
    present ← exists_ aoi;
    if present then erase aoi else ret tt
  else
    setNx use_aoi (VBool true);;
    setNx (aoi ++ [Name itmLeftTop; Idx 0]) (VInt (tl roi).1);;
    setNx (aoi ++ [Name itmLeftTop; Idx 1]) (VInt (tl roi).2);;
    setNx (aoi ++ [Name itmRightBottom; Idx 0]) (VInt (br roi).1);;
    setNx (aoi ++ [Name itmRightBottom; Idx 1]) (VInt (br roi).2).

Definition discardCalibrationPatterns : Nx F unit :=
  executeNx (new_command cmdDiscardPatterns);; ret tt.

Definition recordCalibrationPattern (e : Ensenso) : Nx F unit :=
  flex_view ← flexView e;
  (if 0 <? flex_view then setFlexView e 0 else ret tt);;
  setProjector e false;;
  setFrontLight e true;;
  retrieve e true 1500 true false;;
  setFrontLight e false;;
  setProjector e true;;
  let command_collect_pattern := new_command cmdCollectPattern in
  s ← serialNumber e;
  let command_collect_pattern :=
    set_parameter command_collect_pattern [Name itmCameras] (VStr s) in
  let command_collect_pattern :=
    set_parameter command_collect_pattern [Name itmDecodeData] (VBool true) in
  executeNx command_collect_pattern;;
  if 0 <? flex_view then setFlexView e flex_view else ret tt.

(** [for (int i = 0; i < samples; ++i) body] *)
Fixpoint repeat_nx (n : nat) (body : Nx F unit) : Nx F unit :=
  match n with
  | O => ret tt
  | S n' => body;; repeat_nx n' body
  end.

Definition getWorkspaceCalibrationFrame (e : Ensenso) : Nx F string :=
  λ w, match as_string (tree w) (ensenso_camera e ++ [Name itmLink; Name itmTarget]) with
       | Ok result => (Ok result, w)
       | Throw _ => (Ok ""%string, w)
       end.

Definition getWorkspaceCalibration (e : Ensenso) : Nx F (option (Isometry3d F)) :=
  frame ← getWorkspaceCalibrationFrame e;
  if bool_decide (frame = ""%string) then ret None else
  pose ← toEigenIsometry (ensenso_camera e ++ [Name itmLink]);
  ret (Some (scale_translation s_0_001 pose)).

Definition detectCalibrationPattern (e : Ensenso) (samples : Z) (ignore_calibration : bool)
  : Nx F (Isometry3d F) :=
  discardCalibrationPatterns;;
  repeat_nx (Z.to_nat samples) (recordCalibrationPattern e);;
  flex_view ← flexView e;
  (if 0 <? flex_view then setFlexView e 0 else ret tt);;
  let command_estimate_pose := new_command cmdEstimatePatternPose in
  result_tree ← executeNx command_estimate_pose;
  (if 0 <? flex_view then setFlexView e flex_view else ret tt);;
  result ← lift (as_pose result_tree [Name "Patterns"; Idx 0; Name itmPatternPose]);
  let result := scale_translation s_0_001 result in
  if ignore_calibration then
    camera_pose ← getWorkspaceCalibration e;
    match camera_pose with
    | Some camera_pose => ret (compose camera_pose result)
    | None => ret result
    end
  else ret result.

(** The loop copying the robot poses into the command, from index [i]. *)
Fixpoint copy_robot_poses (i : nat) (robot_poses : list (Isometry3d F))
         (calibrate : NxLibCommand F) : NxLibCommand F :=
  match robot_poses with
  | [] => calibrate
  | pose :: rest =>
      copy_robot_poses (S i) rest
        (set_parameter calibrate [Name itmTransformations; Idx i]
           (VPose (scale_translation s_1000 pose)))
  end.

Definition computeCalibration (e : Ensenso) (robot_poses : list (Isometry3d F))
           (moving : bool) (camera_guess pattern_guess : option (Isometry3d F))
           (target : string) : Nx F (CalibrationResult F) :=
  let calibrate := new_command cmdCalibrateHandEye in
  let calibrate :=
    match camera_guess with
    | Some g => set_parameter calibrate [Name itmLink] (VPose (scale_translation s_1000 g))
    | None => calibrate
    end in
  let calibrate :=
    match pattern_guess with
    | Some g => set_parameter calibrate [Name itmPatternPose] (VPose (scale_translation s_1000 g))
    | None => calibrate
    end in
  let calibrate :=
    set_parameter calibrate [Name itmSetup] (VStr (if moving then valMoving else valFixed)) in
  let calibrate :=
    if bool_decide (target ≠ ""%string)
    then set_parameter calibrate [Name itmTarget] (VStr target)
    else calibrate in
  let calibrate := copy_robot_poses 0 robot_poses calibrate in
  result ← executeNx calibrate;
  link ← toEigenIsometry (ensenso_camera e ++ [Name itmLink]);
  let camera_pose := inverse link in
  pattern_pose ← lift (as_pose result [Name itmPatternPose]);
  let camera_pose := scale_translation s_0_001 camera_pose in
  let pattern_pose := scale_translation s_0_001 pattern_pose in
  its ← lift (as_int result [Name itmIterations]);
  err ← lift (as_double result [Name itmReprojectionError]);
  ret (mkCalibrationResult camera_pose pattern_pose its err).

Definition storeWorkspaceCalibration (e : Ensenso) : Nx F unit :=
  let command := new_command cmdStoreCalibration in
  s ← serialNumber e;
  let command := set_parameter command [Name itmCameras; Idx 0] (VStr s) in
  let command := set_parameter command [Name itmCalibration; Idx 0] (VBool true) in
  let command := set_parameter command [Name itmLink; Idx 0] (VBool true) in
  executeNx command;; ret tt.

Definition setWorkspaceCalibration (e : Ensenso) (workspace : Isometry3d F)
           (frame_id : string) (defined_pose : Isometry3d F) (store : bool) : Nx F unit :=
  let command := new_command cmdCalibrateWorkspace in
  s ← serialNumber e;
  let command := set_parameter command [Name itmCameras; Idx 0] (VStr s) in
  let command :=
    set_parameter command [Name itmPatternPose] (VPose (scale_translation s_1000 workspace)) in
  let command :=
    if bool_decide (frame_id ≠ ""%string)
    then set_parameter command [Name itmTarget] (VStr frame_id)
    else command in
  let command :=
    set_parameter command [Name itmDefinedPose] (VPose (scale_translation s_1000 defined_pose)) in
  executeNx command;;
  if store then storeWorkspaceCalibration e else ret tt.

Definition clearWorkspaceCalibration (e : Ensenso) (store : bool) : Nx F unit :=
  frame ← getWorkspaceCalibrationFrame e;
  if bool_decide (frame = ""%string) then ret tt else
  let command := new_command cmdCalibrateWorkspace in
  s ← serialNumber e;
  let command := set_parameter command [Name itmCameras; Idx 0] (VStr s) in
  let command := set_parameter command [Name itmTarget] (VStr ""%string) in
  executeNx command;;
  s ← serialNumber e;
  setNx (ensenso_camera e ++ [Name itmLink; Name itmTarget]) (VStr (s +:+ "_frame"));;
  if store then storeWorkspaceCalibration e else ret tt.

End Driver.

(** ** Images and point clouds *)

Definition itmImages : string := "Images".
Definition itmRaw : string := "Raw".
Definition itmRectified : string := "Rectified".
Definition itmLeft : string := "Left".
Definition itmPointMap : string := "PointMap".
Definition itmRenderPointMap : string := "RenderPointMap".
Definition itmUseOpenGL : string := "UseOpenGL".
Definition itmNear : string := "Near".
Definition itmCamera : string := "Camera".
Definition itmFilename : string := "Filename".

Definition cmdRectifyImages : string := "RectifyImages".
Definition cmdComputeDisparityMap : string := "ComputeDisparityMap".
Definition cmdComputePointMap : string := "ComputePointMap".
Definition cmdRenderPointMap : string := "RenderPointMap".
Definition cmdLoadUEyeParameterSet : string := "LoadUEyeParameterSet".

(** [std::runtime_error], which only the loaders throw; it travels in the
    value of the computation, beside the NxLib exceptions of the monad. *)
Inductive runtime_error := RuntimeError (what : string).

Section Acquisition.
Context {F : Type} `{Scalar F} {Mat Cloud : Type}.

Local Abbreviation tree_t := (gmap path (value F)).

Variable device : string → tree_t → tree_t → option tree_t * tree_t.

(** [toCvMat(item)] of opencv.hpp and [toPointCloud(item)] of pcl.hpp turn
    the binary data of an item into an image or a cloud; both headers are
    outside the sources, so the conversions are parameters. *)
Variable toCvMat : tree_t → path → res Mat.
Variable toPointCloud : tree_t → path → res Cloud.

Local Open Scope nx_scope.

Definition loadMonocularUeyeParameters (e : Ensenso) (parameters_file : string)
  : Nx F (runtime_error + unit) :=
  match monocular_camera e with
  | None =>
      ret (inl (RuntimeError
        "No monocular camera found. Can not load monocular camera UEye parameters."))
  | Some _ =>
      let command := new_command cmdLoadUEyeParameterSet in
      let command := set_parameter command [Name itmFilename] (VStr parameters_file) in
      executeNx device command;; ret (inr tt)
  end.

Definition rectifyImages (e : Ensenso) : Nx F unit :=
  let command := new_command cmdRectifyImages in
  s ← serialNumber e;
  let command := set_parameter command [Name itmCameras; Idx 0] (VStr s) in
  executeNx device command;; ret tt.

Definition loadIntensity (e : Ensenso) (capture : bool) : Nx F Mat :=
  (if capture
   then retrieve device e true 1500
          (negb (bool_decide (is_Some (monocular_camera e))))
          (bool_decide (is_Some (monocular_camera e)));; ret tt
   else ret tt);;
  match monocular_camera e with
  | Some m => getNx toCvMat (m ++ [Name itmImages; Name itmRaw])
  | None =>
      rectifyImages e;;
      getNx toCvMat (ensenso_camera e ++ [Name itmImages; Name itmRectified; Name itmLeft])
  end.

Definition loadPointCloud (e : Ensenso) (roi : Rect) (capture : bool) : Nx F Cloud :=
  (if capture then retrieve device e true 1500 true true;; ret tt else ret tt);;
  setRegionOfInterest e roi;;
  serial ← serialNumber e;
  (let command := new_command cmdComputeDisparityMap in
   let command := set_parameter command [Name itmCameras] (VStr serial) in
   executeNx device command);;
  (let command := new_command cmdComputePointMap in
   let command := set_parameter command [Name itmCameras] (VStr serial) in
   executeNx device command);;
  getNx toPointCloud (ensenso_camera e ++ [Name itmImages; Name itmPointMap]).

Definition loadRegisteredPointCloud (e : Ensenso) (roi : Rect) (capture : bool) : Nx F Cloud :=
  (if capture then retrieve device e true 1500 true true;; ret tt else ret tt);;
  setRegionOfInterest e roi;;
  serial ← serialNumber e;
  (let command := new_command cmdComputeDisparityMap in
   let command := set_parameter command [Name itmCameras] (VStr serial) in
   executeNx device command);;
  let command := new_command cmdRenderPointMap in
  let command := set_parameter command [Name itmNear] (VInt 1) in
  ms ← monocularSerialNumber e;
  let command := set_parameter command [Name itmCamera] (VStr ms) in
  setNx (root e ++ [Name itmParameters; Name itmRenderPointMap; Name itmUseOpenGL])
        (VBool false);;
  executeNx device command;;
  getNx toPointCloud (root e ++ [Name itmImages; Name itmRenderPointMap]).

End Acquisition.

(** ** Vocabulary of the properties *)

Section Vocabulary.
Context {F : Type}.

Local Abbreviation tree_t := (gmap path (value F)).

(** The items the driver touches below the stereo camera node. *)
Definition serial_item (cam : path) : path := cam ++ [Name itmSerialNumber].
Definition flex_view_item (e : Ensenso) : path :=
  ensenso_camera e ++ [Name itmParameters; Name itmCapture; Name itmFlexView].
Definition front_light_item (e : Ensenso) : path :=
  ensenso_camera e ++ [Name itmParameters; Name itmCapture; Name itmFrontLight].
Definition projector_item (e : Ensenso) : path :=
  ensenso_camera e ++ [Name itmParameters; Name itmCapture; Name itmProjector].
Definition use_aoi_item (e : Ensenso) : path :=
  ensenso_camera e ++ [Name itmParameters; Name itmCapture; Name itmUseDisparityMapAreaOfInterest].
Definition aoi_item (e : Ensenso) : path :=
  ensenso_camera e ++ [Name itmParameters; Name itmDisparityMap; Name itmAreaOfInterest].
Definition link_item (e : Ensenso) : path := ensenso_camera e ++ [Name itmLink].
Definition target_item (e : Ensenso) : path := ensenso_camera e ++ [Name itmLink; Name itmTarget].

(** The secondary flag after [monocular = monocular && monocular_camera]. *)
Definition narrowed (e : Ensenso) (monocular : bool) : bool :=
  monocular && bool_decide (is_Some (monocular_camera e)).

(** Device [cam] reports [field] in the result tree of a command. *)
Definition reports (t : tree_t) (result : tree_t) (field : string) (cam : path) : Prop :=
  ∃ s, as_string t (serial_item cam) = Ok s ∧
       result !! [Name s; Name field] = Some (VBool true).

(** The cameras named by the parameters of a command that addresses the
    secondary camera [m]: stereo first when it is addressed too. *)
Definition camera_order (e : Ensenso) (stereo : bool) (t ps : tree_t) : Prop :=
  ∃ m sm, monocular_camera e = Some m ∧ as_string t (serial_item m) = Ok sm ∧
    if stereo
    then ∃ s, as_string t (serial_item (ensenso_camera e)) = Ok s ∧
              ps !! [Name itmCameras; Idx 0] = Some (VStr s) ∧
              ps !! [Name itmCameras; Idx 1] = Some (VStr sm)
    else ps !! [Name itmCameras; Idx 0] = Some (VStr sm).

(** How often the command [name] occurs in a stretch of the log. *)
Fixpoint executions (name : string) (l : list (event F)) : nat :=
  match l with
  | [] => 0
  | EvExec n _ _ :: l' => (if String.eqb n name then 1 else 0) + executions name l'
  | _ :: l' => executions name l'
  end.

(** The frame name [getWorkspaceCalibrationFrame] finds in a tree. *)
Definition workspace_frame (e : Ensenso) (t : tree_t) : string :=
  match t !! target_item e with
  | Some (VStr s) => s
  | _ => ""%string
  end.

End Vocabulary.

(** ** A scripted device for concrete runs *)

Module Bench.
Import QArith.QArith_base.

Definition Q_scalar : Scalar Q :=
  {| s_add := Qplus; s_mul := Qmult; s_neg := Qopp;
     s_1000 := Qmake 1000 1; s_0_001 := Qmake 1 1000 |}.
#[global] Existing Instance Q_scalar.

Definition q (z : Z) : Q := Qmake z 1.

Definition identity : Isometry3d Q :=
  mkIso (mkVec (q 1) (q 0) (q 0)) (mkVec (q 0) (q 1) (q 0)) (mkVec (q 0) (q 0) (q 1))
        (mkVec (q 0) (q 0) (q 0)).

(** A quarter turn about the z axis, then a shift (in millimeters). *)
Definition link_mm : Isometry3d Q :=
  mkIso (mkVec (q 0) (q (-1)) (q 0)) (mkVec (q 1) (q 0) (q 0)) (mkVec (q 0) (q 0) (q 1))
        (mkVec (q 100) (q 200) (q 300)).

Definition pattern_mm : Isometry3d Q :=
  mkIso (mkVec (q 1) (q 0) (q 0)) (mkVec (q 0) (q 1) (q 0)) (mkVec (q 0) (q 0) (q 1))
        (mkVec (q 10) (q 20) (q 500)).

Definition stereo_item : path := [Name "Cameras"; Name "BySerialNo"; Name "150534"].
Definition mono_item : path := [Name "Cameras"; Name "BySerialNo"; Name "4102"].

Definition session : Ensenso := mkEnsenso [] stereo_item (Some mono_item).
Definition stereo_only : Ensenso := mkEnsenso [] stereo_item None.

(** Every camera named at index 0 or 1 of the parameters reports [field]. *)
Definition report (field : string) (ps : gmap path (value Q)) : gmap path (value Q) :=
  let one i acc :=
    match ps !! [Name itmCameras; Idx i] with
    | Some (VStr s) => <[[Name s; Name field] := VBool true]> acc
    | _ => acc
    end in
  one 0%nat (one 1%nat ∅).

Definition device (name : string) (ps t : gmap path (value Q))
  : option (gmap path (value Q)) * gmap path (value Q) :=
  if String.eqb name cmdTrigger then (Some (report itmTriggered ps), t)
  else if String.eqb name cmdCapture then (Some (report itmRetrieved ps), t)
  else if String.eqb name cmdRetrieve then (Some (report itmRetrieved ps), t)
  else if String.eqb name cmdEstimatePatternPose then
    (Some {[ [Name "Patterns"; Idx 0; Name itmPatternPose] := VPose pattern_mm ]}, t)
  else if String.eqb name cmdCalibrateHandEye then
    (Some (<[[Name itmPatternPose] := VPose pattern_mm]>
           (<[[Name itmIterations] := VInt 12]>
            {[ [Name itmReprojectionError] := VDouble (Qmake 1 4) ]})),
     <[stereo_item ++ [Name itmLink] := VPose link_mm]> t)
  else if String.eqb name cmdCalibrateWorkspace then
    (Some ∅,
     match ps !! [Name itmTarget] with
     | Some v => <[stereo_item ++ [Name itmLink; Name itmTarget] := v]> t
     | None => t
     end)
  else (Some ∅, t).

(** A freshly opened session: serial numbers, flex view at level 4. *)
Definition fresh : World Q :=
  mkWorld (<[stereo_item ++ [Name itmSerialNumber] := VStr "150534"]>
           (<[mono_item ++ [Name itmSerialNumber] := VStr "4102"]>
            {[ stereo_item ++ [Name itmParameters; Name itmCapture; Name itmFlexView] := VInt 4 ]}))
          [].

(** The same session with a workspace calibration in place. *)
Definition calibrated : World Q :=
  mkWorld (<[stereo_item ++ [Name itmLink; Name itmTarget] := VStr "Workspace"]>
           (<[stereo_item ++ [Name itmLink] := VPose link_mm]> (tree fresh)))
          [].

(** The parameters naming both cameras, and the answer to a trigger. *)
Definition both_cameras : gmap path (value Q) :=
  <[[Name itmCameras; Idx 1] := VStr "4102"]>
  (<[[Name itmCameras; Idx 0] := VStr "150534"]> ∅).

Definition robot_poses : list (Isometry3d Q) :=
  [identity; link_mm; pattern_mm].

(** What the solver run above comes back with, in meters. *)
Definition solved : CalibrationResult Q :=
  mkCalibrationResult (scale_translation s_0_001 (inverse link_mm))
                      (scale_translation s_0_001 pattern_mm) 12 (Qmake 1 4).

Definition after_retrieve : World Q :=
  (retrieve device session true 1500 true true fresh).2.

Definition after_calibration : World Q :=
  (computeCalibration device session robot_poses true (Some identity) (Some pattern_mm)
     "Hand" fresh).2.

Definition after_record : World Q := (recordCalibrationPattern device session fresh).2.

Definition after_detect : World Q :=
  (detectCalibrationPattern device session 2 true calibrated).2.

Definition detected : Isometry3d Q :=
  compose (scale_translation s_0_001 link_mm) (scale_translation s_0_001 pattern_mm).

Definition after_clear : World Q :=
  (clearWorkspaceCalibration device session false calibrated).2.

(** Images: the conversions read an integer handle, and the tree carries
    one for every image the loaders ask for. *)
Definition toCvMat (t : gmap path (value Q)) (p : path) : res Z := as_int t p.
Definition toPointCloud (t : gmap path (value Q)) (p : path) : res Z := as_int t p.

Definition imaging : World Q :=
  mkWorld (<[mono_item ++ [Name itmImages; Name itmRaw] := VInt 7]>
           (<[stereo_item ++ [Name itmImages; Name itmRectified; Name itmLeft] := VInt 5]>
            (<[stereo_item ++ [Name itmImages; Name itmPointMap] := VInt 9]>
             (<[[Name itmImages; Name itmRenderPointMap] := VInt 11]> (tree fresh)))))
          [].

(** A device whose captures fail. *)
Definition no_capture (name : string) (ps t : gmap path (value Q))
  : option (gmap path (value Q)) * gmap path (value Q) :=
  if String.eqb name cmdCapture then (None, t) else device name ps t.

(** The tree of the fresh session at the moment a recording captures. *)
Definition at_capture : gmap path (value Q) :=
  <[front_light_item session := VBool true]>
  (<[projector_item session := VBool false]>
   (<[flex_view_item session := VInt 0]> (tree fresh))).

(** The parameters of a capture of both cameras with the largest
    timeout an [unsigned int] holds. *)
Definition capture_both : gmap path (value Q) :=
  <[[Name itmCameras; Idx 1] := VStr "4102"]>
  (<[[Name itmCameras; Idx 0] := VStr "150534"]>
   (<[[Name itmTimeout] := VInt (-1)]> ∅)).

Definition after_trigger : World Q := (trigger device session true true fresh).2.

Definition after_set_workspace : World Q :=
  (setWorkspaceCalibration device session link_mm "Workspace" identity true fresh).2.

Definition after_intensity : World Q := (loadIntensity device toCvMat session true imaging).2.

Definition after_stereo_intensity : World Q :=
  (loadIntensity device toCvMat stereo_only true imaging).2.

Definition after_cloud : World Q :=
  (loadPointCloud device toPointCloud session (mkRect 0 0 100 80) true imaging).2.

Definition after_registered : World Q :=
  (loadRegisteredPointCloud device toPointCloud stereo_only (mkRect 0 0 0 0) false imaging).2.

(** A device whose pose estimation fails, and the session after one
    pattern has been recorded on it. *)
Definition no_estimate (name : string) (ps t : gmap path (value Q))
  : option (gmap path (value Q)) * gmap path (value Q) :=
  if String.eqb name cmdEstimatePatternPose then (None, t) else device name ps t.

Definition after_recording : World Q :=
  (bind (discardCalibrationPatterns no_estimate)
        (λ _, repeat_nx 1 (recordCalibrationPattern no_estimate session)) fresh).2.

End Bench.

(** * Properties *)

Section DriverProperties.
Context {F : Type} `{Scalar F}.

Local Abbreviation tree_t := (gmap path (value F)).

Variable device : string → tree_t → tree_t → option tree_t * tree_t.

Ltac nx_unfold :=
  unfold bind, ret, throw, lift, getNx, setNx, executeNx, catch_NxError,
         new_command, set_parameter in *; cbn [cmd_name parameters tree log] in *.

(** *** Inversion of successful runs *)

Lemma bind_Ok {A B} (m : Nx F A) (k : A → Nx F B) (w w' : World F) (b : B) :
  bind m k w = (Ok b, w') → ∃ a w1, m w = (Ok a, w1) ∧ k a w1 = (Ok b, w').
Proof.
  unfold bind. destruct (m w) as [[a|x] w1]; [eauto | discriminate].
Qed.

Lemma ret_Ok {A} (a b : A) (w w' : World F) :
  ret a w = (Ok b, w') → b = a ∧ w' = w.
Proof. unfold ret. by intros [= -> ->]. Qed.

Lemma lift_Ok {A} (r : res A) (a : A) (w w' : World F) :
  lift r w = (Ok a, w') → r = Ok a ∧ w' = w.
Proof. unfold lift. by intros [= -> ->]. Qed.

Lemma getNx_Ok {A} (as_T : tree_t → path → res A) (p : path) (a : A) (w w' : World F) :
  getNx as_T p w = (Ok a, w') → as_T (tree w) p = Ok a ∧ w' = w.
Proof. unfold getNx. by intros [= -> ->]. Qed.

Lemma setNx_Ok (p : path) (v : value F) (u : unit) (w w' : World F) :
  setNx p v w = (Ok u, w') →
  w' = mkWorld (<[p := v]> (tree w)) (log w ++ [EvSet p v]).
Proof. unfold setNx. by intros [= _ <-]. Qed.

Lemma executeNx_Ok (c : NxLibCommand F) (result : tree_t) (w w' : World F) :
  executeNx device c w = (Ok result, w') →
  ∃ t', device (cmd_name c) (parameters c) (tree w) = (Some result, t') ∧
        w' = mkWorld t' (log w ++ [EvExec (cmd_name c) (parameters c) (Some result)]).
Proof.
  unfold executeNx. destruct (device _ _ _) as [[r|] t']; [|discriminate].
  intros [= -> <-]. eauto.
Qed.

Lemma flexView_Ok (e : Ensenso) (level : Z) (w w' : World F) :
  flexView e w = (Ok level, w') →
  level = match tree w !! (ensenso_camera e ++ [Name itmParameters; Name itmCapture; Name itmFlexView]) with
          | Some (VInt z) => z
          | _ => -1
          end ∧ w' = w.
Proof.
  unfold flexView, catch_NxError, getNx, as_int, ret.
  destruct (tree w !! _) as [[]|]; by intros [= <- <-].
Qed.

Lemma as_string_Ok (t : tree_t) (p : path) (s : string) :
  as_string t p = Ok s ↔ t !! p = Some (VStr s).
Proof. unfold as_string. destruct (t !! p) as [[]|]; naive_solver. Qed.

Lemma as_bool_Ok (t : tree_t) (p : path) (b : bool) :
  as_bool t p = Ok b ↔ t !! p = Some (VBool b).
Proof. unfold as_bool. destruct (t !! p) as [[]|]; naive_solver. Qed.

Lemma as_int_Ok (t : tree_t) (p : path) (z : Z) :
  as_int t p = Ok z ↔ t !! p = Some (VInt z).
Proof. unfold as_int. destruct (t !! p) as [[]|]; naive_solver. Qed.

Lemma as_double_Ok (t : tree_t) (p : path) (x : F) :
  as_double t p = Ok x ↔ t !! p = Some (VDouble x).
Proof. unfold as_double. destruct (t !! p) as [[]|]; naive_solver. Qed.

Lemma as_pose_Ok (t : tree_t) (p : path) (x : Isometry3d F) :
  as_pose t p = Ok x ↔ t !! p = Some (VPose x).
Proof. unfold as_pose. destruct (t !! p) as [[]|]; naive_solver. Qed.

(** One step of taking a successful run apart. *)
Ltac nx_step :=
  match goal with
  | H : bind _ _ _ = (Ok _, _) |- _ =>
      let a := fresh "a" in let w := fresh "w" in let Hm := fresh "Hm" in
      apply bind_Ok in H as (a & w & Hm & H)
  | H : ret _ _ = (Ok _, _) |- _ => apply ret_Ok in H as [? ?]; subst
  | H : lift _ _ = (Ok _, _) |- _ => apply lift_Ok in H as [H ?]; subst
  | H : getNx _ _ _ = (Ok _, _) |- _ => apply getNx_Ok in H as [H ?]; subst
  | H : toEigenIsometry _ _ = (Ok _, _) |- _ => apply getNx_Ok in H as [H ?]; subst
  | H : serialNumber _ _ = (Ok _, _) |- _ => apply getNx_Ok in H as [H ?]; subst
  | H : setNx _ _ _ = (Ok _, _) |- _ => apply setNx_Ok in H; subst
  | H : setFlexView _ _ _ = (Ok _, _) |- _ => apply setNx_Ok in H; subst
  | H : setFrontLight _ _ _ = (Ok _, _) |- _ => apply setNx_Ok in H; subst
  | H : setProjector _ _ _ = (Ok _, _) |- _ => apply setNx_Ok in H; subst
  | H : flexView _ _ = (Ok _, _) |- _ => apply flexView_Ok in H as [? ?]; subst
  | H : executeNx _ _ _ = (Ok _, _) |- _ =>
      let t := fresh "t" in let Hd := fresh "Hdev" in
      apply executeNx_Ok in H as (t & Hd & ?); subst
  | H : throw _ _ = (Ok _, _) |- _ => discriminate H
  | H : (if ?c then _ else _) _ = (Ok _, _) |- _ => destruct c eqn:?
  | H : match ?c with Some _ => _ | None => _ end _ = (Ok _, _) |- _ => destruct c eqn:?
  end.

Ltac nx_inv := repeat (nx_step; cbn [cmd_name parameters tree log new_command set_parameter] in * ).

(** C9. Reading the flex-view level never throws: a failed read of the
    item (the feature is off, so it holds no integer) is caught and turned
    into [-1], a stored integer level is returned as it is, and the world
    is left alone. *)
Theorem flexView_sentinel (e : Ensenso) (w : World F) :
  flexView e w =
    (Ok (match tree w !! flex_view_item e with
         | Some (VInt level) => level
         | _ => -1
         end), w).
Proof.
  unfold flexView, flex_view_item. nx_unfold. unfold as_int.
  destruct (tree w !! _) as [[]|]; reflexivity.
Qed.

(** C3. [retrieve] first narrows the secondary flag by the presence of the
    secondary camera; with nothing addressed it returns [true] and leaves
    the world (tree and log) untouched; otherwise, when it returns, it has
    executed one command and its value is [true] exactly when every
    addressed camera reports [Retrieved] in that command's result. *)
Theorem retrieve_outcome (e : Ensenso) (trig : bool) (timeout : Z)
        (stereo monocular : bool) (w : World F) :
  (monocular_camera e = None →
     retrieve device e trig timeout stereo monocular w
     = retrieve device e trig timeout stereo false w) ∧
  (stereo = false → narrowed e monocular = false →
     retrieve device e trig timeout stereo monocular w = (Ok true, w)) ∧
  (∀ b w', (stereo = true ∨ narrowed e monocular = true) →
     retrieve device e trig timeout stereo monocular w = (Ok b, w') →
     ∃ ps result,
       log w' = log w ++ [EvExec (if trig then cmdCapture else cmdRetrieve) ps (Some result)] ∧
       (b = true ↔
          (stereo = true → reports (tree w') result itmRetrieved (ensenso_camera e)) ∧
          (narrowed e monocular = true →
             ∃ m, monocular_camera e = Some m ∧ reports (tree w') result itmRetrieved m))).
Proof.
  unfold narrowed. split; [|split].
  - intros Hm. unfold retrieve. rewrite Hm. cbn. by rewrite andb_false_r.
  - intros -> Hm. unfold retrieve. rewrite Hm. reflexivity.
  - intros b w' Haddr. unfold retrieve, reports, serial_item.
    unfold monocular_get, monocularSerialNumber.
    destruct stereo, (monocular && _) eqn:Hn; cbn [negb andb];
      try (destruct Haddr; discriminate); clear Haddr; intros Hrun.
    all: nx_inv.
    all: eexists _, _; (split; [reflexivity|]).
    all: repeat match goal with
           | Hb : negb _ = true |- _ => apply negb_true_iff in Hb
           | Hb : negb _ = false |- _ => apply negb_false_iff in Hb
           end; subst.
    all: rewrite ?as_string_Ok, ?as_bool_Ok in *.
    all: repeat setoid_rewrite as_string_Ok.
    all: split;
      [ first [ discriminate
              | intros _; split; intros Hx; first [discriminate Hx | eauto 8] ]
      | first [ done
              | intros [H1 H2]; exfalso;
                first [ destruct (H1 eq_refl) as (?&?&?); congruence
                      | destruct (H2 eq_refl) as (?&?&?&?&?); congruence ] ] ].
Qed.

Lemma log_extension_nil (l evs : list (event F)) : l = l ++ evs → evs = [].
Proof.
  intros Heq. rewrite <- (app_nil_r l) in Heq at 1. by apply app_inv_head in Heq.
Qed.

Ltac log_cases Hlog :=
  first [ apply log_extension_nil in Hlog | apply app_inv_head in Hlog ]; subst.

(** C4. Whatever [trigger] or [retrieve] executes, a command that addresses
    the secondary camera names it at index 1 of [Cameras] behind the stereo
    camera at index 0 when both are addressed, and at index 0 when it is
    addressed alone. *)
Theorem camera_index_order (e : Ensenso) (trig : bool) (timeout : Z)
        (stereo monocular : bool) (w : World F) (evs : list (event F))
        (name : string) (ps : tree_t) (r : option tree_t) :
  log (trigger device e stereo monocular w).2 = log w ++ evs ∨
  log (retrieve device e trig timeout stereo monocular w).2 = log w ++ evs →
  EvExec name ps r ∈ evs →
  narrowed e monocular = true →
  camera_order e stereo (tree w) ps.
Proof.
  unfold narrowed, camera_order, serial_item. intros Hlog Hin Hn.
  unfold trigger, retrieve, serialNumber, monocular_get, monocularSerialNumber in Hlog.
  rewrite Hn in Hlog. nx_unfold.
  destruct (monocular_camera e) as [m|] eqn:Hm;
    [|rewrite andb_false_r in Hn; discriminate].
  destruct Hlog as [Hlog|Hlog], stereo; cbn [negb andb] in Hlog.
  all: repeat case_match; simplify_eq; cbn [snd tree log cmd_name parameters] in *.
  all: log_cases Hlog.
  all: try (by apply elem_of_nil in Hin).
  all: apply list_elem_of_singleton in Hin; simplify_eq.
  all: do 2 eexists; split; [done|]; split; [first [eassumption|reflexivity]|].
  all: try (eexists; split; [first [eassumption|reflexivity]|split]).
  all: by simplify_map_eq.
Qed.

(** C10. [trigger] has no early return: with nothing addressed it still
    executes a [Trigger] command whose parameters name no camera, and
    returns [true] when the device accepts it; [retrieve] on the same flags
    returns [true] without touching the device. *)
Theorem trigger_without_cameras (e : Ensenso) (trig : bool) (timeout : Z)
        (monocular : bool) (w : World F) :
  narrowed e monocular = false →
  trigger device e false monocular w =
    (match (device cmdTrigger ∅ (tree w)).1 with
     | Some _ => Ok true
     | None => Throw NxCommandError
     end,
     mkWorld (device cmdTrigger ∅ (tree w)).2
             (log w ++ [EvExec cmdTrigger ∅ (device cmdTrigger ∅ (tree w)).1])) ∧
  retrieve device e trig timeout false monocular w = (Ok true, w).
Proof.
  unfold narrowed. intros Hn. unfold trigger, retrieve. rewrite Hn. cbn [negb andb].
  split; [|reflexivity].
  nx_unfold. by destruct (device cmdTrigger ∅ (tree w)) as [[result|] t'].
Qed.

(** *** Region of interest *)

Ltac path_neq :=
  let Hq := fresh "Hq" in
  intros Hq; rewrite <- ?(assoc_L (++)) in Hq;
  repeat apply app_inv_head in Hq; cbv in Hq; discriminate Hq.

Lemma not_under_aoi (e : Ensenso) : ¬ aoi_item e `prefix_of` use_aoi_item e.
Proof.
  unfold aoi_item, use_aoi_item. intros [k Hk]. revert Hk. path_neq.
Qed.

(** An ordinary rectangle passes the test [roi.area() == 0] as non-empty. *)
Lemma area_nonzero (roi : Rect) :
  0 < rwidth roi → 0 < rheight roi → rwidth roi * rheight roi < 2 ^ 31 → area roi ≠ 0.
Proof.
  intros Hw Hh Hsmall. unfold area, wrap_int.
  rewrite Z.mod_small by lia. lia.
Qed.

Lemma setRegionOfInterest_unrestricted (e : Ensenso) (roi : Rect) (w : World F) :
  area roi = 0 →
  ∃ w', setRegionOfInterest e roi w = (Ok tt, w') ∧
        tree w' !! use_aoi_item e = Some (VBool false) ∧
        ∀ p, aoi_item e `prefix_of` p → tree w' !! p = None.
Proof.
  intros Ha. unfold setRegionOfInterest. rewrite Ha. cbn [Z.eqb].
  fold (aoi_item e) (use_aoi_item e). unfold exists_, erase. nx_unfold.
  case_bool_decide as Hex; eexists; (split; [reflexivity|]); cbn [tree]; split.
  - apply map_lookup_filter_Some. split; [by rewrite lookup_insert_eq|].
    apply not_under_aoi.
  - intros p Hp. apply map_lookup_filter_None. right. intros x _ Hn. by apply Hn.
  - by rewrite lookup_insert_eq.
  - intros p Hp. destruct (_ !! p) as [x|] eqn:Hx; [|done].
    exfalso. apply Hex. by exists p, x.
Qed.

Lemma setRegionOfInterest_rectangle (e : Ensenso) (roi : Rect) (w : World F) :
  area roi ≠ 0 →
  ∃ w', setRegionOfInterest e roi w = (Ok tt, w') ∧
        tree w' !! use_aoi_item e = Some (VBool true) ∧
        tree w' !! (aoi_item e ++ [Name itmLeftTop; Idx 0]) = Some (VInt (rx roi)) ∧
        tree w' !! (aoi_item e ++ [Name itmLeftTop; Idx 1]) = Some (VInt (ry roi)) ∧
        tree w' !! (aoi_item e ++ [Name itmRightBottom; Idx 0])
          = Some (VInt (wrap_int (rx roi + rwidth roi))) ∧
        tree w' !! (aoi_item e ++ [Name itmRightBottom; Idx 1])
          = Some (VInt (wrap_int (ry roi + rheight roi))).
Proof.
  intros Ha. unfold setRegionOfInterest. apply Z.eqb_neq in Ha. rewrite Ha.
  unfold aoi_item, use_aoi_item. nx_unfold. eexists. split; [reflexivity|].
  cbn [tree tl br fst snd].
  repeat split.
  all: repeat first [ rewrite lookup_insert_eq; reflexivity
                    | rewrite lookup_insert_ne by path_neq ].
Qed.

(** C8. After [setRegionOfInterest] with any rectangle, a call with the
    unrestricted region ([cv::Rect()]) switches the area-of-interest flag
    off and leaves no item at or below the [AreaOfInterest] node; a call
    with a rectangle of non-zero area (width times height, as an [int])
    switches the flag on and writes the top-left corner [(x, y)] and the
    bottom-right corner [(x + width, y + height)], sums taken as [int]. *)
Theorem setRegionOfInterest_effect (e : Ensenso) (r : Rect) (w : World F) :
  let int32 (z : Z) : Z := (z + 2 ^ 31) mod 2 ^ 32 - 2 ^ 31 in
  (∃ w1 w2,
     setRegionOfInterest e r w = (Ok tt, w1) ∧
     setRegionOfInterest e (mkRect 0 0 0 0) w1 = (Ok tt, w2) ∧
     tree w2 !! use_aoi_item e = Some (VBool false) ∧
     ∀ p, aoi_item e `prefix_of` p → tree w2 !! p = None) ∧
  (int32 (rwidth r * rheight r) ≠ 0 →
   ∃ w1,
     setRegionOfInterest e r w = (Ok tt, w1) ∧
     tree w1 !! use_aoi_item e = Some (VBool true) ∧
     tree w1 !! (aoi_item e ++ [Name itmLeftTop; Idx 0]) = Some (VInt (rx r)) ∧
     tree w1 !! (aoi_item e ++ [Name itmLeftTop; Idx 1]) = Some (VInt (ry r)) ∧
     tree w1 !! (aoi_item e ++ [Name itmRightBottom; Idx 0])
       = Some (VInt (int32 (rx r + rwidth r))) ∧
     tree w1 !! (aoi_item e ++ [Name itmRightBottom; Idx 1])
       = Some (VInt (int32 (ry r + rheight r)))).
Proof.
  cbv zeta. split.
  - assert (∃ w1, setRegionOfInterest e r w = (Ok tt, w1)) as [w1 Hw1].
    { destruct (decide (area r = 0)) as [Ha|Ha].
      - destruct (setRegionOfInterest_unrestricted e r w Ha) as (w1 & ? & _). eauto.
      - destruct (setRegionOfInterest_rectangle e r w Ha) as (w1 & ? & _). eauto. }
    destruct (setRegionOfInterest_unrestricted e (mkRect 0 0 0 0) w1 eq_refl)
      as (w2 & Hw2 & Hflag & Hgone).
    by exists w1, w2.
  - intros Ha. apply setRegionOfInterest_rectangle, Ha.
Qed.

(** *** Hand-eye calibration *)

Lemma copy_robot_poses_name (i : nat) (poses : list (Isometry3d F)) (c : NxLibCommand F) :
  cmd_name (copy_robot_poses i poses c) = cmd_name c.
Proof.
  revert i c. induction poses as [|pose rest IH]; intros i c; [done|].
  cbn [copy_robot_poses]. by rewrite IH.
Qed.

Lemma copy_robot_poses_untouched (i : nat) (poses : list (Isometry3d F))
      (c : NxLibCommand F) (q : path) :
  (∀ k, (i ≤ k)%nat → q ≠ [Name itmTransformations; Idx k]) →
  parameters (copy_robot_poses i poses c) !! q = parameters c !! q.
Proof.
  revert i c. induction poses as [|pose rest IH]; intros i c Hq; [done|].
  cbn [copy_robot_poses]. rewrite IH by (intros k Hk; apply Hq; lia).
  cbn [set_parameter parameters]. rewrite lookup_insert_ne; [done|].
  intros Heq. by apply (Hq i).
Qed.

Lemma copy_robot_poses_lookup (i j : nat) (poses : list (Isometry3d F))
      (c : NxLibCommand F) (pose : Isometry3d F) :
  poses !! j = Some pose →
  parameters (copy_robot_poses i poses c) !! [Name itmTransformations; Idx (i + j)]
  = Some (VPose (scale_translation s_1000 pose)).
Proof.
  revert i j c. induction poses as [|head rest IH]; intros i j c Hj; [done|].
  cbn [copy_robot_poses]. destruct j as [|j]; cbn in Hj.
  - simplify_eq. rewrite Nat.add_0_r, copy_robot_poses_untouched.
    + cbn [set_parameter parameters]. by rewrite lookup_insert_eq.
    + intros k Hk [= ->]. lia.
  - replace (i + S j)%nat with (S i + j)%nat by lia. by apply IH.
Qed.

Lemma copy_robot_poses_beyond (i j : nat) (poses : list (Isometry3d F)) (c : NxLibCommand F) :
  poses !! j = None →
  parameters (copy_robot_poses i poses c) !! [Name itmTransformations; Idx (i + j)]
  = parameters c !! [Name itmTransformations; Idx (i + j)].
Proof.
  revert i j c. induction poses as [|head rest IH]; intros i j c Hj; [done|].
  cbn [copy_robot_poses]. destruct j as [|j]; [done|]. cbn in Hj.
  replace (i + S j)%nat with (S i + j)%nat by lia. rewrite IH by done.
  cbn [set_parameter parameters]. rewrite lookup_insert_ne; [done|].
  intros [= Heq]. lia.
Qed.

(** What [computeCalibration] sends to the device, whatever the input. *)
Lemma computeCalibration_command (e : Ensenso) (robot_poses : list (Isometry3d F))
      (moving : bool) (camera_guess pattern_guess : option (Isometry3d F))
      (target : string) (w : World F) :
  let run := computeCalibration device e robot_poses moving camera_guess pattern_guess target w in
  ∃ ps,
    log run.2 = log w ++ [EvExec cmdCalibrateHandEye ps (device cmdCalibrateHandEye ps (tree w)).1] ∧
    tree run.2 = (device cmdCalibrateHandEye ps (tree w)).2 ∧
    ((device cmdCalibrateHandEye ps (tree w)).1 = None → run.1 = Throw NxCommandError) ∧
    (∀ g, camera_guess = Some g →
          ps !! [Name itmLink] = Some (VPose (scale_translation s_1000 g))) ∧
    (∀ g, pattern_guess = Some g →
          ps !! [Name itmPatternPose] = Some (VPose (scale_translation s_1000 g))) ∧
    (∀ i pose, robot_poses !! i = Some pose →
          ps !! [Name itmTransformations; Idx i] = Some (VPose (scale_translation s_1000 pose))) ∧
    (∀ i, robot_poses !! i = None → ps !! [Name itmTransformations; Idx i] = None).
Proof.
  cbv zeta. unfold computeCalibration.
  set (c := copy_robot_poses 0 robot_poses _).
  exists (parameters c).
  assert (cmd_name c = cmdCalibrateHandEye) as Hname.
  { unfold c. rewrite copy_robot_poses_name. by repeat case_match. }
  split; [|split; [|split]].
  1-3: unfold toEigenIsometry; nx_unfold; rewrite Hname;
       destruct (device _ _ _) as [[result|] t']; cbn; [repeat case_match|]; try done.
  split; [|split; [|split]].
  - intros g ->. unfold c. rewrite copy_robot_poses_untouched by (intros k _; discriminate).
    repeat case_match; cbn [set_parameter parameters new_command];
      repeat first [ rewrite lookup_insert_eq; reflexivity
                   | rewrite lookup_insert_ne by discriminate ].
  - intros g ->. unfold c. rewrite copy_robot_poses_untouched by (intros k _; discriminate).
    repeat case_match; cbn [set_parameter parameters new_command];
      repeat first [ rewrite lookup_insert_eq; reflexivity
                   | rewrite lookup_insert_ne by discriminate ].
  - intros i pose Hi. unfold c. by apply (copy_robot_poses_lookup 0 i).
  - intros i Hi. unfold c. rewrite (copy_robot_poses_beyond 0 i _ _ Hi).
    repeat case_match; cbn [set_parameter parameters new_command];
      repeat first [ apply lookup_empty
                   | rewrite lookup_insert_ne by discriminate ].
Qed.

(** What [computeCalibration] sends and hands back, in the driver's own
    operations on poses. *)
Lemma computeCalibration_poses (e : Ensenso) (robot_poses : list (Isometry3d F))
      (moving : bool) (camera_guess pattern_guess : option (Isometry3d F))
      (target : string) (w : World F) :
  let run := computeCalibration device e robot_poses moving camera_guess pattern_guess target w in
  (∃ ps r,
     log run.2 = log w ++ [EvExec cmdCalibrateHandEye ps r] ∧
     (∀ g, camera_guess = Some g →
           ps !! [Name itmLink] = Some (VPose (scale_translation s_1000 g))) ∧
     (∀ g, pattern_guess = Some g →
           ps !! [Name itmPatternPose] = Some (VPose (scale_translation s_1000 g))) ∧
     (∀ i pose, robot_poses !! i = Some pose →
           ps !! [Name itmTransformations; Idx i]
           = Some (VPose (scale_translation s_1000 pose)))) ∧
  (∀ cr, run.1 = Ok cr →
     ∃ ps result link pattern,
       log run.2 = log w ++ [EvExec cmdCalibrateHandEye ps (Some result)] ∧
       tree run.2 !! link_item e = Some (VPose link) ∧
       result !! [Name itmPatternPose] = Some (VPose pattern) ∧
       result !! [Name itmIterations] = Some (VInt (iterations cr)) ∧
       result !! [Name itmReprojectionError] = Some (VDouble (reprojection_error cr)) ∧
       camera_pose cr = scale_translation s_0_001 (inverse link) ∧
       pattern_pose cr = scale_translation s_0_001 pattern).
Proof.
  cbv zeta. split.
  - destruct (computeCalibration_command e robot_poses moving camera_guess pattern_guess
                target w) as (ps & Hlog & _ & _ & Hc & Hp & Hr & _).
    by exists ps, (device cmdCalibrateHandEye ps (tree w)).1.
  - intros cr Hcr.
    destruct (computeCalibration _ _ _ _ _ _ _ w) as [out w'] eqn:Hrun.
    cbn [fst snd] in *. subst out. unfold computeCalibration in Hrun.
    set (c := copy_robot_poses 0 robot_poses _) in Hrun.
    assert (cmd_name c = cmdCalibrateHandEye) as Hname.
    { unfold c. rewrite copy_robot_poses_name. by repeat case_match. }
    nx_inv. rewrite Hname.
    rewrite as_pose_Ok in *. rewrite as_int_Ok, as_double_Ok in *.
    by exists (parameters c), a, a0, a1.
Qed.

(** C2. Every pose handed to [computeCalibration] reaches the solver
    command with the rotation as it is and each coordinate of the
    translation multiplied by [1000]: the camera guess at [Link], the
    pattern guess at [PatternPose] and robot pose [i] at
    [Transformations/i]. When the call returns, the camera pose is the
    inverse of the link read back from the camera node (rotation
    transposed, translation carried back through the transposed rotation
    and negated) and the pattern pose is the one of the command result,
    both with each coordinate of the translation multiplied by [0.001],
    next to the iteration count and the reprojection error of the command
    result. *)
Theorem computeCalibration_units (e : Ensenso) (robot_poses : list (Isometry3d F))
        (moving : bool) (camera_guess pattern_guess : option (Isometry3d F))
        (target : string) (w : World F) :
  let run := computeCalibration device e robot_poses moving camera_guess pattern_guess target w in
  let times (c : F) (p : Isometry3d F) : Isometry3d F :=
    mkIso (row0 p) (row1 p) (row2 p)
          (mkVec (s_mul (vx (translation p)) c)
                 (s_mul (vy (translation p)) c)
                 (s_mul (vz (translation p)) c)) in
  let inverted (p : Isometry3d F) : Isometry3d F :=
    let back (a b c : F) : F :=
      s_neg (s_add (s_add (s_mul a (vx (translation p))) (s_mul b (vy (translation p))))
                   (s_mul c (vz (translation p)))) in
    mkIso (mkVec (vx (row0 p)) (vx (row1 p)) (vx (row2 p)))
          (mkVec (vy (row0 p)) (vy (row1 p)) (vy (row2 p)))
          (mkVec (vz (row0 p)) (vz (row1 p)) (vz (row2 p)))
          (mkVec (back (vx (row0 p)) (vx (row1 p)) (vx (row2 p)))
                 (back (vy (row0 p)) (vy (row1 p)) (vy (row2 p)))
                 (back (vz (row0 p)) (vz (row1 p)) (vz (row2 p)))) in
  (∃ ps r,
     log run.2 = log w ++ [EvExec cmdCalibrateHandEye ps r] ∧
     (∀ g, camera_guess = Some g →
           ps !! [Name itmLink] = Some (VPose (times s_1000 g))) ∧
     (∀ g, pattern_guess = Some g →
           ps !! [Name itmPatternPose] = Some (VPose (times s_1000 g))) ∧
     (∀ i pose, robot_poses !! i = Some pose →
           ps !! [Name itmTransformations; Idx i] = Some (VPose (times s_1000 pose)))) ∧
  (∀ cr, run.1 = Ok cr →
     ∃ ps result link pattern,
       log run.2 = log w ++ [EvExec cmdCalibrateHandEye ps (Some result)] ∧
       tree run.2 !! link_item e = Some (VPose link) ∧
       result !! [Name itmPatternPose] = Some (VPose pattern) ∧
       result !! [Name itmIterations] = Some (VInt (iterations cr)) ∧
       result !! [Name itmReprojectionError] = Some (VDouble (reprojection_error cr)) ∧
       camera_pose cr = times s_0_001 (inverted link) ∧
       pattern_pose cr = times s_0_001 pattern).
Proof.
  cbv zeta.
  exact (computeCalibration_poses e robot_poses moving camera_guess pattern_guess target w).
Qed.

(** C1 (as the code has it). [computeCalibration] does not look at the
    number of robot poses: on every input it executes the hand-eye solver
    command exactly once, with one [Transformations] entry per pose, and a
    failure of that command is what the caller gets to see. *)
Theorem computeCalibration_always_invokes_solver (e : Ensenso)
        (robot_poses : list (Isometry3d F)) (moving : bool)
        (camera_guess pattern_guess : option (Isometry3d F)) (target : string) (w : World F) :
  let run := computeCalibration device e robot_poses moving camera_guess pattern_guess target w in
  ∃ ps,
    log run.2 = log w ++ [EvExec cmdCalibrateHandEye ps (device cmdCalibrateHandEye ps (tree w)).1] ∧
    (∀ i, is_Some (ps !! [Name itmTransformations; Idx i]) ↔ (i < length robot_poses)%nat) ∧
    ((device cmdCalibrateHandEye ps (tree w)).1 = None → run.1 = Throw NxCommandError).
Proof.
  cbv zeta.
  destruct (computeCalibration_command e robot_poses moving camera_guess pattern_guess
              target w) as (ps & Hlog & _ & Hfail & _ & _ & Hr & Hnone).
  exists ps. split; [done|]. split; [|done].
  intros i. rewrite <- lookup_lt_is_Some. split.
  - intros Hps. destruct (robot_poses !! i) eqn:Hi; [done|].
    rewrite (Hnone i Hi) in Hps. by destruct Hps.
  - intros [pose Hi]. rewrite (Hr i pose Hi). done.
Qed.

(** *** Recording a calibration pattern *)

Lemma as_string_insert_ne (t : tree_t) (p q : path) (v : value F) :
  p ≠ q → as_string (<[p := v]> t) q = as_string t q.
Proof. intros Hne. unfold as_string. by rewrite lookup_insert_ne. Qed.

Lemma recordCalibrationPattern_log (e : Ensenso) (u : unit) (w w' : World F) :
  recordCalibrationPattern device e w = (Ok u, w') →
  let level := match tree w !! flex_view_item e with Some (VInt z) => z | _ => -1 end in
  let t0 := <[front_light_item e := VBool true]>
            (<[projector_item e := VBool false]>
             (if 0 <? level then <[flex_view_item e := VInt 0]> (tree w) else tree w)) in
  ∃ s1 s2 r1 r2 t1,
    as_string (tree w) (serial_item (ensenso_camera e)) = Ok s1 ∧
    device cmdCapture (<[[Name itmCameras; Idx 0] := VStr s1]>
                       (<[[Name itmTimeout] := VInt 1500]> ∅)) t0 = (Some r1, t1) ∧
    as_string t1 (serial_item (ensenso_camera e)) = Ok s2 ∧
    log w' = log w
      ++ (if 0 <? level then [EvSet (flex_view_item e) (VInt 0)] else [])
      ++ [EvSet (projector_item e) (VBool false);
          EvSet (front_light_item e) (VBool true);
          EvExec cmdCapture (<[[Name itmCameras; Idx 0] := VStr s1]>
                             (<[[Name itmTimeout] := VInt 1500]> ∅)) (Some r1);
          EvSet (front_light_item e) (VBool false);
          EvSet (projector_item e) (VBool true);
          EvExec cmdCollectPattern (<[[Name itmDecodeData] := VBool true]>
                                    (<[[Name itmCameras] := VStr s2]> ∅)) (Some r2)]
      ++ (if 0 <? level then [EvSet (flex_view_item e) (VInt level)] else []).
Proof.
  cbv zeta. unfold flex_view_item, front_light_item, projector_item, serial_item.
  intros Hrun. unfold recordCalibrationPattern, retrieve in Hrun.
  cbn [negb andb] in Hrun. nx_inv.
  all: change (int_of_unsigned 1500) with 1500 in *.
  all: rewrite !as_string_insert_ne in * by path_neq.
  all: eexists _, _, _, _, _; (split; [eassumption|]).
  all: (split; [eassumption|]); (split; [eassumption|]).
  all: rewrite <- ?(assoc_L (++)); reflexivity.
Qed.

(** C5. A recording that returns has done exactly this, in this order:
    flex view set to 0 if its level was above 0; projector off, front
    light on; one [Capture] (trigger and retrieve) of the stereo camera
    alone with a timeout of 1500; front light off, projector on; one
    [CollectPattern] with [DecodeData] set, for the serial number of the
    stereo camera; flex view set back to the level read at the start if
    and only if that level was above 0. *)
Theorem recordCalibrationPattern_sequence (e : Ensenso) (w w' : World F) :
  recordCalibrationPattern device e w = (Ok tt, w') →
  let level := match tree w !! flex_view_item e with Some (VInt z) => z | _ => -1 end in
  let t0 := <[front_light_item e := VBool true]>
            (<[projector_item e := VBool false]>
             (if 0 <? level then <[flex_view_item e := VInt 0]> (tree w) else tree w)) in
  ∃ s1 s2 r1 r2 t1,
    as_string (tree w) (serial_item (ensenso_camera e)) = Ok s1 ∧
    device cmdCapture (<[[Name itmCameras; Idx 0] := VStr s1]>
                       (<[[Name itmTimeout] := VInt 1500]> ∅)) t0 = (Some r1, t1) ∧
    as_string t1 (serial_item (ensenso_camera e)) = Ok s2 ∧
    log w' = log w
      ++ (if 0 <? level then [EvSet (flex_view_item e) (VInt 0)] else [])
      ++ [EvSet (projector_item e) (VBool false);
          EvSet (front_light_item e) (VBool true);
          EvExec cmdCapture (<[[Name itmCameras; Idx 0] := VStr s1]>
                             (<[[Name itmTimeout] := VInt 1500]> ∅)) (Some r1);
          EvSet (front_light_item e) (VBool false);
          EvSet (projector_item e) (VBool true);
          EvExec cmdCollectPattern (<[[Name itmDecodeData] := VBool true]>
                                    (<[[Name itmCameras] := VStr s2]> ∅)) (Some r2)]
      ++ (if 0 <? level then [EvSet (flex_view_item e) (VInt level)] else []).
Proof. apply recordCalibrationPattern_log. Qed.

(** *** Detecting the pattern *)

Lemma executions_app (name : string) (l1 l2 : list (event F)) :
  executions name (l1 ++ l2) = (executions name l1 + executions name l2)%nat.
Proof.
  induction l1 as [|ev l1 IH]; [done|]. destruct ev; cbn; rewrite IH; lia.
Qed.

Lemma getWorkspaceCalibrationFrame_eq (e : Ensenso) (w : World F) :
  getWorkspaceCalibrationFrame e w = (Ok (workspace_frame e (tree w)), w).
Proof.
  unfold getWorkspaceCalibrationFrame, workspace_frame, target_item, as_string.
  by destruct (tree w !! _) as [[]|].
Qed.

Lemma recordCalibrationPattern_executions (e : Ensenso) (u : unit) (w w' : World F) :
  recordCalibrationPattern device e w = (Ok u, w') →
  ∃ evs, log w' = log w ++ evs ∧
         executions cmdCollectPattern evs = 1%nat ∧
         executions cmdDiscardPatterns evs = 0%nat.
Proof.
  intros Hrun. apply recordCalibrationPattern_log in Hrun.
  destruct Hrun as (s1 & s2 & r1 & r2 & t1 & _ & _ & _ & Hlog).
  eexists. split; [exact Hlog|]. by destruct (0 <? _).
Qed.

Lemma repeat_record_executions (e : Ensenso) (n : nat) (u : unit) (w w' : World F) :
  repeat_nx n (recordCalibrationPattern device e) w = (Ok u, w') →
  ∃ evs, log w' = log w ++ evs ∧
         executions cmdCollectPattern evs = n ∧
         executions cmdDiscardPatterns evs = 0%nat.
Proof.
  revert w. induction n as [|n IH]; intros w Hrun; cbn [repeat_nx] in Hrun.
  - apply ret_Ok in Hrun as [_ ->]. exists []. by rewrite app_nil_r.
  - apply bind_Ok in Hrun as (u1 & w1 & Hone & Hrest).
    apply recordCalibrationPattern_executions in Hone as (evs1 & Hlog1 & Hc1 & Hd1).
    apply IH in Hrest as (evs2 & Hlog2 & Hc2 & Hd2).
    exists (evs1 ++ evs2). rewrite Hlog2, Hlog1, !executions_app, Hc1, Hc2, Hd1, Hd2.
    by rewrite (assoc_L (++)).
Qed.

(** What [detectCalibrationPattern] executes and hands back, in the
    driver's own operations on poses. *)
Lemma detectCalibrationPattern_steps (e : Ensenso) (samples : Z) (flag : bool)
        (w w' : World F) (pose : Isometry3d F) :
  detectCalibrationPattern device e samples flag w = (Ok pose, w') →
  ∃ r0 recs pre result post raw,
    log w' = log w ++ [EvExec cmdDiscardPatterns ∅ (Some r0)] ++ recs
                   ++ pre ++ [EvExec cmdEstimatePatternPose ∅ (Some result)] ++ post ∧
    executions cmdCollectPattern recs = Z.to_nat samples ∧
    executions cmdDiscardPatterns recs = 0%nat ∧
    executions cmdCollectPattern (pre ++ post) = 0%nat ∧
    result !! [Name "Patterns"; Idx 0; Name itmPatternPose] = Some (VPose raw) ∧
    (flag = false → pose = scale_translation s_0_001 raw) ∧
    (workspace_frame e (tree w') = ""%string → pose = scale_translation s_0_001 raw) ∧
    (flag = true → workspace_frame e (tree w') ≠ ""%string →
       ∃ link, tree w' !! link_item e = Some (VPose link) ∧
               pose = compose (scale_translation s_0_001 link)
                              (scale_translation s_0_001 raw)).
Proof.
  intros Hrun. unfold detectCalibrationPattern, discardCalibrationPatterns in Hrun.
  apply bind_Ok in Hrun as (u0 & w0 & Hdiscard & Hrun). 
  apply bind_Ok in Hrun as (u1 & w1 & Hrec & Hrun).
  apply repeat_record_executions in Hrec as (recs & Hlog1 & Hc & Hd).
  unfold getWorkspaceCalibration in Hrun.
  nx_inv.
  all: repeat match goal with
         | Hx : getWorkspaceCalibrationFrame _ _ = _ |- _ =>
             rewrite getWorkspaceCalibrationFrame_eq in Hx; injection Hx as <- <-
         end; cbn [tree log] in *.
  all: rewrite ?as_pose_Ok in *.
  all: fold (flex_view_item e) in *.
  all: match goal with
       | Hb : (0 <? ?level) = _ |- _ =>
           eexists _, recs, (if 0 <? level then [EvSet (flex_view_item e) (VInt 0)] else []),
             _, (if 0 <? level then [EvSet (flex_view_item e) (VInt level)] else []), _;
           rewrite Hb
       end.
  all: (split; [rewrite Hlog1, <- !(assoc_L (++)); reflexivity|]).
  all: (split; [exact Hc|]); (split; [exact Hd|]); (split; [reflexivity|]).
  all: (split; [eassumption|]).
  all: repeat case_bool_decide.
  all: intuition (try congruence); eauto.
Qed.

(** C6. A detection that returns has first executed [DiscardPatterns],
    then recorded [samples] patterns, then estimated the pattern pose. Its
    value is that pose with each coordinate of the translation multiplied
    by [0.001]; exactly when the flag is set and the camera carries a
    non-empty workspace frame name, the link transform of the camera
    (translation scaled alike) stands to the left of it in a product of
    transforms: the rotations are multiplied link first, and the
    translation is the link's rotation applied to the pattern's
    translation plus the link's translation. With the flag off the value
    is the rescaled pose of the estimate. *)
Theorem detectCalibrationPattern_result (e : Ensenso) (samples : Z) (flag : bool)
        (w w' : World F) (pose : Isometry3d F) :
  let times (c : F) (p : Isometry3d F) : Isometry3d F :=
    mkIso (row0 p) (row1 p) (row2 p)
          (mkVec (s_mul (vx (translation p)) c)
                 (s_mul (vy (translation p)) c)
                 (s_mul (vz (translation p)) c)) in
  let product (a b : Isometry3d F) : Isometry3d F :=
    let entry (r : Vector3 F) (x y z : F) : F :=
      s_add (s_add (s_mul (vx r) x) (s_mul (vy r) y)) (s_mul (vz r) z) in
    let row (r : Vector3 F) : Vector3 F :=
      mkVec (entry r (vx (row0 b)) (vx (row1 b)) (vx (row2 b)))
            (entry r (vy (row0 b)) (vy (row1 b)) (vy (row2 b)))
            (entry r (vz (row0 b)) (vz (row1 b)) (vz (row2 b))) in
    let moved (r : Vector3 F) (t : F) : F :=
      s_add (entry r (vx (translation b)) (vy (translation b)) (vz (translation b))) t in
    mkIso (row (row0 a)) (row (row1 a)) (row (row2 a))
          (mkVec (moved (row0 a) (vx (translation a)))
                 (moved (row1 a) (vy (translation a)))
                 (moved (row2 a) (vz (translation a)))) in
  detectCalibrationPattern device e samples flag w = (Ok pose, w') →
  ∃ r0 recs pre result post raw,
    log w' = log w ++ [EvExec cmdDiscardPatterns ∅ (Some r0)] ++ recs
                   ++ pre ++ [EvExec cmdEstimatePatternPose ∅ (Some result)] ++ post ∧
    executions cmdCollectPattern recs = Z.to_nat samples ∧
    executions cmdDiscardPatterns recs = 0%nat ∧
    executions cmdCollectPattern (pre ++ post) = 0%nat ∧
    result !! [Name "Patterns"; Idx 0; Name itmPatternPose] = Some (VPose raw) ∧
    (flag = false → pose = times s_0_001 raw) ∧
    (workspace_frame e (tree w') = ""%string → pose = times s_0_001 raw) ∧
    (flag = true → workspace_frame e (tree w') ≠ ""%string →
       ∃ link, tree w' !! link_item e = Some (VPose link) ∧
               pose = product (times s_0_001 link) (times s_0_001 raw)).
Proof.
  cbv zeta. exact (detectCalibrationPattern_steps e samples flag w w' pose).
Qed.

(** *** Workspace calibration *)

(** What [clearWorkspaceCalibration] does, for every device. Without a
    workspace frame name it returns at once and leaves tree and log as
    they are. With one, a call that returns has executed
    [CalibrateWorkspace] for the camera with an empty [Target], then
    written the serial number followed by [_frame] to the frame name of
    the camera, and then executed [StoreCalibration] if and only if
    [store] is set; without [store] the frame name reads back as that
    name. *)
Theorem clearWorkspaceCalibration_effect (e : Ensenso) (store : bool) (w : World F) :
  (workspace_frame e (tree w) = ""%string →
     clearWorkspaceCalibration device e store w = (Ok tt, w)) ∧
  (workspace_frame e (tree w) ≠ ""%string →
   ∀ w', clearWorkspaceCalibration device e store w = (Ok tt, w') →
     ∃ s1 r1 t1 s2 persisted,
       as_string (tree w) (serial_item (ensenso_camera e)) = Ok s1 ∧
       device cmdCalibrateWorkspace
              (<[[Name itmTarget] := VStr ""]> (<[[Name itmCameras; Idx 0] := VStr s1]> ∅))
              (tree w) = (Some r1, t1) ∧
       as_string t1 (serial_item (ensenso_camera e)) = Ok s2 ∧
       log w' = log w
         ++ [EvExec cmdCalibrateWorkspace
               (<[[Name itmTarget] := VStr ""]> (<[[Name itmCameras; Idx 0] := VStr s1]> ∅))
               (Some r1);
             EvSet (target_item e) (VStr (s2 +:+ "_frame"))]
         ++ persisted ∧
       (store = false →
          persisted = [] ∧ workspace_frame e (tree w') = s2 +:+ "_frame") ∧
       (store = true →
          ∃ s3 r3, persisted =
            [EvExec cmdStoreCalibration
               (<[[Name itmLink; Idx 0] := VBool true]>
                (<[[Name itmCalibration; Idx 0] := VBool true]>
                 (<[[Name itmCameras; Idx 0] := VStr s3]> ∅)))
               (Some r3)])).
Proof.
  split.
  - intros Hframe. unfold clearWorkspaceCalibration, bind.
    rewrite getWorkspaceCalibrationFrame_eq, Hframe. reflexivity.
  - intros Hframe w' Hrun. unfold clearWorkspaceCalibration in Hrun.
    apply bind_Ok in Hrun as (frame & w0 & Hget & Hrun).
    rewrite getWorkspaceCalibrationFrame_eq in Hget. injection Hget as <- <-.
    rewrite bool_decide_eq_false_2 in Hrun by done.
    unfold storeWorkspaceCalibration in Hrun. nx_inv.
    all: fold (target_item e) in *.
    all: eexists _, _, _, _, _; (split; [eassumption|]); (split; [eassumption|]).
    all: (split; [eassumption|]).
    all: (split; [rewrite <- !(assoc_L (++)); cbn [app]; reflexivity|]).
    all: split; [|intros Hs; try discriminate Hs; eauto].
    all: intros Hs; try discriminate Hs.
    split; [reflexivity|]. unfold workspace_frame. by rewrite lookup_insert_eq.
Qed.

(** ** Further properties of the driver *)

(** *** Trigger and retrieve *)

(** X1. A [trigger] that returns has executed one [Trigger] command, and
    its value is [true] exactly when every addressed camera reports
    [Triggered] in the result of that command. *)
Theorem trigger_outcome (e : Ensenso) (stereo monocular : bool) (w w' : World F) (b : bool) :
  trigger device e stereo monocular w = (Ok b, w') →
  ∃ ps result,
    log w' = log w ++ [EvExec cmdTrigger ps (Some result)] ∧
    (b = true ↔
       (stereo = true → reports (tree w') result itmTriggered (ensenso_camera e)) ∧
       (narrowed e monocular = true →
          ∃ m, monocular_camera e = Some m ∧ reports (tree w') result itmTriggered m)).
Proof.
  unfold narrowed, trigger, reports, serial_item, monocular_get, monocularSerialNumber.
  destruct stereo, (monocular && _) eqn:Hn; cbv zeta; intros Hrun.
  all: nx_inv.
  all: eexists _, _; (split; [reflexivity|]).
  all: repeat match goal with
         | Hb : negb _ = true |- _ => apply negb_true_iff in Hb
         | Hb : negb _ = false |- _ => apply negb_false_iff in Hb
         end; subst.
  all: rewrite ?as_string_Ok, ?as_bool_Ok in *.
  all: repeat setoid_rewrite as_string_Ok.
  all: split;
    [ first [ discriminate
            | intros _; split; intros Hx; first [discriminate Hx | eauto 8] ]
    | first [ done
            | intros [H1 H2]; exfalso;
              first [ destruct (H1 eq_refl) as (?&?&?); congruence
                    | destruct (H2 eq_refl) as (?&?&?&?&?); congruence ] ] ].
Qed.

(** The conversion [int(timeout)] keeps a timeout below [2^31] and turns a
    larger one negative. *)
Lemma int_of_unsigned_small (u : Z) : 0 ≤ u < 2 ^ 31 → int_of_unsigned u = u.
Proof.
  intros Hu. unfold int_of_unsigned, wrap_int.
  rewrite (Z.mod_small u) by lia. rewrite Z.mod_small by lia. lia.
Qed.

Lemma int_of_unsigned_large (u : Z) :
  2 ^ 31 ≤ u < 2 ^ 32 → int_of_unsigned u = u - 2 ^ 32.
Proof.
  intros Hu. unfold int_of_unsigned, wrap_int.
  rewrite (Z.mod_small u) by lia.
  replace (u + 2 ^ 31) with ((u - 2 ^ 31) + 1 * 2 ^ 32) by lia.
  rewrite Z.mod_add by lia. rewrite Z.mod_small by lia. lia.
Qed.

(** X2. Whatever [retrieve] executes is a [Capture] when [trigger] is set
    and a [Retrieve] otherwise, and carries the timeout converted to [int]:
    the value itself below [2^31], and the value less [2^32], a negative
    number, from there on. *)
Theorem retrieve_command (e : Ensenso) (trig : bool) (timeout : Z)
        (stereo monocular : bool) (w : World F) (evs : list (event F))
        (name : string) (ps : tree_t) (r : option tree_t) :
  log (retrieve device e trig timeout stereo monocular w).2 = log w ++ evs →
  EvExec name ps r ∈ evs →
  name = (if trig then cmdCapture else cmdRetrieve) ∧
  ps !! [Name itmTimeout] = Some (VInt (int_of_unsigned timeout)) ∧
  (0 ≤ timeout < 2 ^ 31 → int_of_unsigned timeout = timeout) ∧
  (2 ^ 31 ≤ timeout < 2 ^ 32 → int_of_unsigned timeout = timeout - 2 ^ 32 ∧
                                 int_of_unsigned timeout < 0).
Proof.
  intros Hlog Hin.
  assert (name = (if trig then cmdCapture else cmdRetrieve) ∧
          ps !! [Name itmTimeout] = Some (VInt (int_of_unsigned timeout))) as [Hname Hps].
  { unfold retrieve, serialNumber, monocular_get, monocularSerialNumber in Hlog.
    nx_unfold.
    destruct stereo, (monocular && _); cbn [negb andb] in Hlog.
    all: repeat case_match; simplify_eq; cbn [snd tree log cmd_name parameters] in *.
    all: log_cases Hlog.
    all: try (by apply elem_of_nil in Hin).
    all: apply list_elem_of_singleton in Hin; simplify_eq.
    all: split; [reflexivity|].
    all: by repeat first [ rewrite lookup_insert_eq | rewrite lookup_insert_ne by discriminate ]. }
  split; [done|]. split; [done|]. split.
  - apply int_of_unsigned_small.
  - intros Hu. rewrite int_of_unsigned_large by done. lia.
Qed.

(** *** Flex view and illumination *)

(** X4. A recording that found flex view at a level above 0 and returns
    leaves it at that level: the level is the last thing it writes. *)
Theorem recordCalibrationPattern_restores_flex_view (e : Ensenso) (level : Z)
        (w w' : World F) :
  tree w !! flex_view_item e = Some (VInt level) →
  0 < level →
  recordCalibrationPattern device e w = (Ok tt, w') →
  flexView e w' = (Ok level, w').
Proof.
  unfold flex_view_item. intros Hlevel Hpos Hrun.
  unfold recordCalibrationPattern, retrieve in Hrun. cbn [negb andb] in Hrun.
  nx_inv.
  all: rewrite Hlevel in *.
  all: try match goal with Hb : (0 <? _) = false |- _ => apply Z.ltb_ge in Hb; lia end.
  all: rewrite flexView_sentinel; unfold flex_view_item; cbn [tree].
  all: by rewrite lookup_insert_eq.
Qed.

(** X5. In a recording that returns, the capture is taken with the
    projector off and the front light on (and flex view at 0 if it was
    above 0), and the pattern is collected with the front light off and
    the projector on again. *)
Theorem recordCalibrationPattern_illumination (e : Ensenso) (w w' : World F) :
  recordCalibrationPattern device e w = (Ok tt, w') →
  ∃ ps1 r1 t0 t1 ps2 r2 t2 t3,
    device cmdCapture ps1 t0 = (Some r1, t1) ∧
    EvExec cmdCapture ps1 (Some r1) ∈ log w' ∧
    t0 !! projector_item e = Some (VBool false) ∧
    t0 !! front_light_item e = Some (VBool true) ∧
    (∀ level, tree w !! flex_view_item e = Some (VInt level) → 0 < level →
              t0 !! flex_view_item e = Some (VInt 0)) ∧
    device cmdCollectPattern ps2 t2 = (Some r2, t3) ∧
    EvExec cmdCollectPattern ps2 (Some r2) ∈ log w' ∧
    t2 !! projector_item e = Some (VBool true) ∧
    t2 !! front_light_item e = Some (VBool false).
Proof.
  unfold flex_view_item, projector_item, front_light_item. intros Hrun.
  unfold recordCalibrationPattern, retrieve in Hrun. cbn [negb andb] in Hrun.
  nx_inv.
  all: eexists _, _, _, _, _, _, _, _.
  all: (split; [eassumption|]).
  all: (split; [rewrite !elem_of_app, !list_elem_of_singleton; tauto|]).
  all: (split; [by rewrite lookup_insert_ne, lookup_insert_eq by path_neq|]).
  all: (split; [by rewrite lookup_insert_eq|]).
  all: split;
    [ intros level Hlevel Hpos;
      try (rewrite Hlevel in *;
           match goal with Hb : (0 <? _) = false |- _ => apply Z.ltb_ge in Hb; lia end);
      by rewrite !lookup_insert_ne, lookup_insert_eq by path_neq |].
  all: (split; [eassumption|]).
  all: (split; [rewrite !elem_of_app, !list_elem_of_singleton; tauto|]).
  all: (split; [by rewrite lookup_insert_eq|]).
  all: by rewrite lookup_insert_ne, lookup_insert_eq by path_neq.
Qed.

(** X6. Nothing is rolled back when the capture fails: the recording
    throws the command error and stops with the projector off and the
    front light on written, flex view not restored, and no pattern
    collected. *)
Theorem recordCalibrationPattern_capture_failure (e : Ensenso) (s : string)
        (t1 : tree_t) (w : World F) :
  let level := match tree w !! flex_view_item e with Some (VInt z) => z | _ => -1 end in
  let t0 := <[front_light_item e := VBool true]>
            (<[projector_item e := VBool false]>
             (if 0 <? level then <[flex_view_item e := VInt 0]> (tree w) else tree w)) in
  let ps := <[[Name itmCameras; Idx 0] := VStr s]> (<[[Name itmTimeout] := VInt 1500]> ∅) in
  as_string (tree w) (serial_item (ensenso_camera e)) = Ok s →
  device cmdCapture ps t0 = (None, t1) →
  recordCalibrationPattern device e w =
    (Throw NxCommandError,
     mkWorld t1 (log w
                 ++ (if 0 <? level then [EvSet (flex_view_item e) (VInt 0)] else [])
                 ++ [EvSet (projector_item e) (VBool false);
                     EvSet (front_light_item e) (VBool true);
                     EvExec cmdCapture ps None])).
Proof.
  cbv zeta. unfold flex_view_item, projector_item, front_light_item, serial_item.
  intros Hs Hdev.
  unfold recordCalibrationPattern, retrieve, setFlexView, setProjector, setFrontLight,
    serialNumber.
  cbn [negb andb]. unfold bind at 1. rewrite flexView_sentinel. unfold flex_view_item.
  change (int_of_unsigned 1500) with 1500.
  destruct (0 <? _); nx_unfold.
  all: rewrite !as_string_insert_ne by path_neq.
  all: rewrite Hs; cbn [cmd_name parameters tree log].
  all: rewrite Hdev.
  all: rewrite <- ?(assoc_L (++)); reflexivity.
Qed.

(** *** Region of interest, continued *)

(** X7. Whatever the region, [setRegionOfInterest] writes to and erases
    nothing but the area-of-interest flag and the items at or below the
    [AreaOfInterest] node: every other item of the tree is afterwards as
    it was. *)
Theorem setRegionOfInterest_frame (e : Ensenso) (roi : Rect) (w : World F) (p : path) :
  p ≠ use_aoi_item e → ¬ aoi_item e `prefix_of` p →
  tree (setRegionOfInterest e roi w).2 !! p = tree w !! p.
Proof.
  intros Hflag Haoi.
  unfold setRegionOfInterest. fold (aoi_item e) (use_aoi_item e).
  destruct (area roi =? 0); unfold exists_, erase; nx_unfold.
  - case_bool_decide; cbn [snd tree].
    + apply option_eq. intros x. rewrite map_lookup_filter_Some.
      rewrite lookup_insert_ne by done. cbn [fst]. tauto.
    + by rewrite lookup_insert_ne.
  - cbn [snd tree].
    rewrite !lookup_insert_ne; [done|done|..].
    all: intros <-; apply Haoi; by apply prefix_app_r.
Qed.

(** X8. Applying the same region twice leaves the tree as the first
    application left it. *)
Theorem setRegionOfInterest_idempotent (e : Ensenso) (roi : Rect) (w : World F) :
  tree (setRegionOfInterest e roi (setRegionOfInterest e roi w).2).2
  = tree (setRegionOfInterest e roi w).2.
Proof.
  destruct (decide (area roi = 0)) as [Ha|Ha].
  - destruct (setRegionOfInterest_unrestricted e roi w Ha) as (w1 & -> & Hflag & Hgone).
    cbn [snd]. unfold setRegionOfInterest. rewrite Ha. cbn [Z.eqb].
    fold (aoi_item e) (use_aoi_item e). unfold exists_, erase. nx_unfold.
    rewrite (insert_id _ _ _ Hflag).
    rewrite bool_decide_eq_false_2; [done|].
    intros (p & x & Hp & Hunder). cbn in Hunder. by rewrite (Hgone p Hunder) in Hp.
  - destruct (setRegionOfInterest_rectangle e roi w Ha)
      as (w1 & -> & Hflag & Hl0 & Hl1 & Hr0 & Hr1).
    cbn [snd]. unfold setRegionOfInterest. apply Z.eqb_neq in Ha. rewrite Ha.
    fold (aoi_item e) (use_aoi_item e). nx_unfold. cbn [snd tree tl br fst].
    rewrite (insert_id _ _ _ Hflag), (insert_id _ _ _ Hl0), (insert_id _ _ _ Hl1).
    by rewrite (insert_id _ _ _ Hr0), (insert_id _ _ _ Hr1).
Qed.

(** X9. A rectangle with a side of length zero counts as the unrestricted
    region wherever it lies: the flag goes off and everything at or below
    [AreaOfInterest] is erased. *)
Theorem setRegionOfInterest_degenerate (e : Ensenso) (roi : Rect) (w : World F) :
  rwidth roi = 0 ∨ rheight roi = 0 →
  ∃ w', setRegionOfInterest e roi w = (Ok tt, w') ∧
        tree w' !! use_aoi_item e = Some (VBool false) ∧
        ∀ p, aoi_item e `prefix_of` p → tree w' !! p = None.
Proof.
  intros Hside. apply setRegionOfInterest_unrestricted.
  unfold area. replace (rwidth roi * rheight roi) with 0 by lia. reflexivity.
Qed.

(** *** Workspace calibration, continued *)

(** The three ways [getWorkspaceCalibration] can end, in the driver's own
    operations on poses. *)
Lemma getWorkspaceCalibration_cases (e : Ensenso) (w : World F) :
  (getWorkspaceCalibration e w).2 = w ∧
  ((getWorkspaceCalibration e w).1 = Ok None ↔
     ¬ ∃ s, s ≠ ""%string ∧ tree w !! target_item e = Some (VStr s)) ∧
  (∀ pose, (getWorkspaceCalibration e w).1 = Ok (Some pose) ↔
     (∃ s, s ≠ ""%string ∧ tree w !! target_item e = Some (VStr s)) ∧
     ∃ link, tree w !! link_item e = Some (VPose link) ∧
             pose = scale_translation s_0_001 link) ∧
  (∀ x, (getWorkspaceCalibration e w).1 = Throw x ↔
     x = NxError ∧
     (∃ s, s ≠ ""%string ∧ tree w !! target_item e = Some (VStr s)) ∧
     ¬ ∃ link, tree w !! link_item e = Some (VPose link)).
Proof.
  unfold getWorkspaceCalibration, bind. rewrite getWorkspaceCalibrationFrame_eq.
  unfold workspace_frame, toEigenIsometry, getNx, as_pose, ret. fold (link_item e).
  destruct (tree w !! target_item e) as [[| | |s|]|] eqn:Htarget;
    try case_bool_decide; try done;
    destruct (tree w !! link_item e) as [[| | | |link]|] eqn:Hlink; cbn [fst snd].
  all: split; [reflexivity|].
  all: split; [|split].
  all: try (intros pose); try (intros x).
  all: split.
  all: try (intros [= <-]).
  all: try discriminate.
  all: naive_solver.
Qed.

(** X10. [getWorkspaceCalibration] only reads. It yields nothing exactly
    when the frame name of the camera is missing, not a string or empty;
    otherwise it yields the link transform, rotation as it is and each
    coordinate of the translation multiplied by [0.001], or throws when
    the link holds no transform. *)
Theorem getWorkspaceCalibration_outcome (e : Ensenso) (w : World F) :
  let times (c : F) (p : Isometry3d F) : Isometry3d F :=
    mkIso (row0 p) (row1 p) (row2 p)
          (mkVec (s_mul (vx (translation p)) c)
                 (s_mul (vy (translation p)) c)
                 (s_mul (vz (translation p)) c)) in
  (getWorkspaceCalibration e w).2 = w ∧
  ((getWorkspaceCalibration e w).1 = Ok None ↔
     ¬ ∃ s, s ≠ ""%string ∧ tree w !! target_item e = Some (VStr s)) ∧
  (∀ pose, (getWorkspaceCalibration e w).1 = Ok (Some pose) ↔
     (∃ s, s ≠ ""%string ∧ tree w !! target_item e = Some (VStr s)) ∧
     ∃ link, tree w !! link_item e = Some (VPose link) ∧
             pose = times s_0_001 link) ∧
  (∀ x, (getWorkspaceCalibration e w).1 = Throw x ↔
     x = NxError ∧
     (∃ s, s ≠ ""%string ∧ tree w !! target_item e = Some (VStr s)) ∧
     ¬ ∃ link, tree w !! link_item e = Some (VPose link)).
Proof. cbv zeta. exact (getWorkspaceCalibration_cases e w). Qed.

(** What a returning [setWorkspaceCalibration] has executed, in the
    driver's own operations on poses. *)
Lemma setWorkspaceCalibration_log (e : Ensenso) (workspace defined_pose : Isometry3d F)
        (frame_id : string) (store : bool) (w w' : World F) :
  setWorkspaceCalibration device e workspace frame_id defined_pose store w = (Ok tt, w') →
  ∃ s ps r stored,
    as_string (tree w) (serial_item (ensenso_camera e)) = Ok s ∧
    log w' = log w ++ [EvExec cmdCalibrateWorkspace ps (Some r)] ++ stored ∧
    ps !! [Name itmCameras; Idx 0] = Some (VStr s) ∧
    ps !! [Name itmPatternPose] = Some (VPose (scale_translation s_1000 workspace)) ∧
    ps !! [Name itmDefinedPose] = Some (VPose (scale_translation s_1000 defined_pose)) ∧
    ps !! [Name itmTarget] = (if bool_decide (frame_id = ""%string)
                              then None else Some (VStr frame_id)) ∧
    (store = false → stored = []) ∧
    (store = true → ∃ s' r',
       stored = [EvExec cmdStoreCalibration
                   (<[[Name itmLink; Idx 0] := VBool true]>
                    (<[[Name itmCalibration; Idx 0] := VBool true]>
                     (<[[Name itmCameras; Idx 0] := VStr s']> ∅)))
                   (Some r')]).
Proof.
  unfold serial_item. intros Hrun.
  unfold setWorkspaceCalibration, storeWorkspaceCalibration in Hrun.
  destruct (decide (frame_id = ""%string)) as [Hid|Hid].
  1: rewrite (bool_decide_eq_false_2 (frame_id ≠ ""%string)) in Hrun by tauto.
  2: rewrite (bool_decide_eq_true_2 (frame_id ≠ ""%string)) in Hrun by done.
  1: rewrite (bool_decide_eq_true_2 _ Hid).
  2: rewrite (bool_decide_eq_false_2 _ Hid).
  all: nx_inv.
  all: eexists _, _, _, _; (split; [eassumption|]).
  all: (split; [rewrite <- ?(assoc_L (++)); cbn [app]; try rewrite app_nil_r; reflexivity|]).
  all: do 4 (split;
         [by repeat first [ rewrite lookup_insert_eq
                          | rewrite lookup_insert_ne by discriminate
                          | rewrite lookup_empty ]|]).
  all: split; intros Hs; try discriminate Hs; eauto.
Qed.

(** X11. A [setWorkspaceCalibration] that returns has executed
    [CalibrateWorkspace] for the camera with the workspace pose and the
    defined pose, rotations as they are and each coordinate of the
    translations multiplied by [1000], naming the target frame only when
    one is given, and has then executed [StoreCalibration] if and only if
    [store] is set. *)
Theorem setWorkspaceCalibration_command (e : Ensenso) (workspace defined_pose : Isometry3d F)
        (frame_id : string) (store : bool) (w w' : World F) :
  let times (c : F) (p : Isometry3d F) : Isometry3d F :=
    mkIso (row0 p) (row1 p) (row2 p)
          (mkVec (s_mul (vx (translation p)) c)
                 (s_mul (vy (translation p)) c)
                 (s_mul (vz (translation p)) c)) in
  setWorkspaceCalibration device e workspace frame_id defined_pose store w = (Ok tt, w') →
  ∃ s ps r stored,
    as_string (tree w) (serial_item (ensenso_camera e)) = Ok s ∧
    log w' = log w ++ [EvExec cmdCalibrateWorkspace ps (Some r)] ++ stored ∧
    ps !! [Name itmCameras; Idx 0] = Some (VStr s) ∧
    ps !! [Name itmPatternPose] = Some (VPose (times s_1000 workspace)) ∧
    ps !! [Name itmDefinedPose] = Some (VPose (times s_1000 defined_pose)) ∧
    ps !! [Name itmTarget] = (if bool_decide (frame_id = ""%string)
                              then None else Some (VStr frame_id)) ∧
    (store = false → stored = []) ∧
    (store = true → ∃ s' r',
       stored = [EvExec cmdStoreCalibration
                   (<[[Name itmLink; Idx 0] := VBool true]>
                    (<[[Name itmCalibration; Idx 0] := VBool true]>
                     (<[[Name itmCameras; Idx 0] := VStr s']> ∅)))
                   (Some r')]).
Proof.
  cbv zeta.
  exact (setWorkspaceCalibration_log e workspace defined_pose frame_id store w w').
Qed.

Lemma sentinel_not_empty (s : string) : s +:+ "_frame" ≠ ""%string.
Proof. by destruct s. Qed.

(** X12. Clearing is not a no-op the second time: after a clear that
    returned (without storing), the frame name is the one just written,
    so a further clear executes [CalibrateWorkspace] again. *)
Theorem clearWorkspaceCalibration_twice (e : Ensenso) (store : bool) (w w' : World F) :
  workspace_frame e (tree w) ≠ ""%string →
  clearWorkspaceCalibration device e false w = (Ok tt, w') →
  ∃ ps r rest,
    log (clearWorkspaceCalibration device e store w').2
    = log w' ++ EvExec cmdCalibrateWorkspace ps r :: rest.
Proof.
  intros Hframe Hrun. unfold clearWorkspaceCalibration in Hrun.
  apply bind_Ok in Hrun as (frame & w0 & Hget & Hrun).
  rewrite getWorkspaceCalibrationFrame_eq in Hget. injection Hget as <- <-.
  rewrite bool_decide_eq_false_2 in Hrun by done.
  nx_inv. fold (target_item e) in *.
  unfold clearWorkspaceCalibration, bind at 1.
  rewrite getWorkspaceCalibrationFrame_eq. unfold workspace_frame. cbn [tree].
  rewrite lookup_insert_eq.
  rewrite bool_decide_eq_false_2 by apply sentinel_not_empty.
  unfold storeWorkspaceCalibration, serialNumber. nx_unfold.
  unfold target_item. rewrite !as_string_insert_ne by path_neq.
  match goal with Hs : as_string t _ = Ok _ |- _ => rewrite Hs end.
  cbn [tree log].
  destruct (device cmdCalibrateWorkspace _ _) as [[result|] t2]; cbn [tree log snd].
  all: repeat case_match; simplify_eq; cbn [snd tree log].
  all: eexists _, _, _; rewrite <- ?(assoc_L (++)); cbn [app]; reflexivity.
Qed.

(** *** Hand-eye calibration, continued *)

(** X13. The solver command always says how the camera is mounted,
    [Moving] or [Fixed], and names a target frame exactly when the
    [target] argument is not empty. *)
Theorem computeCalibration_setup_and_target (e : Ensenso)
        (robot_poses : list (Isometry3d F)) (moving : bool)
        (camera_guess pattern_guess : option (Isometry3d F)) (target : string) (w : World F) :
  ∃ ps r,
    log (computeCalibration device e robot_poses moving camera_guess pattern_guess
           target w).2 = log w ++ [EvExec cmdCalibrateHandEye ps r] ∧
    ps !! [Name itmSetup] = Some (VStr (if moving then valMoving else valFixed)) ∧
    ps !! [Name itmTarget] = (if bool_decide (target = ""%string)
                              then None else Some (VStr target)).
Proof.
  unfold computeCalibration.
  set (c := copy_robot_poses 0 robot_poses _).
  exists (parameters c), (device cmdCalibrateHandEye (parameters c) (tree w)).1.
  assert (cmd_name c = cmdCalibrateHandEye) as Hname.
  { unfold c. rewrite copy_robot_poses_name. by repeat case_match. }
  split.
  { unfold toEigenIsometry; nx_unfold; rewrite Hname.
    destruct (device _ _ _) as [[result|] t']; cbn; [repeat case_match|]; done. }
  unfold c. rewrite !copy_robot_poses_untouched by (intros k _; discriminate).
  repeat case_bool_decide; try done.
  all: destruct camera_guess, pattern_guess; cbn [set_parameter parameters new_command].
  all: split;
    by repeat first [ rewrite lookup_insert_eq
                    | rewrite lookup_insert_ne by discriminate
                    | rewrite lookup_empty ].
Qed.

(** *** Detection, continued *)

(** X14. With a sample count of zero or below nothing is recorded: in
    every run, the detection executes neither a capture nor a pattern
    collection. *)
Theorem detectCalibrationPattern_without_samples (e : Ensenso) (samples : Z)
        (flag : bool) (w : World F) (evs : list (event F)) :
  samples ≤ 0 →
  log (detectCalibrationPattern device e samples flag w).2 = log w ++ evs →
  executions cmdCapture evs = 0%nat ∧ executions cmdCollectPattern evs = 0%nat.
Proof.
  intros Hs Hlog. unfold detectCalibrationPattern in Hlog.
  replace (Z.to_nat samples) with 0%nat in Hlog by lia. cbn [repeat_nx] in Hlog.
  unfold discardCalibrationPatterns, getWorkspaceCalibration, getWorkspaceCalibrationFrame,
    toEigenIsometry, flexView, setFlexView in Hlog.
  nx_unfold.
  repeat case_match; simplify_eq; cbn [snd tree log] in Hlog.
  all: rewrite <- ?(assoc_L (++)) in Hlog; apply app_inv_head in Hlog; subst evs.
  all: split; reflexivity.
Qed.

(** X20. Nothing is rolled back when the pose estimation fails either:
    after the patterns have been recorded with flex view at a level above
    0, a failing [EstimatePatternPose] ends the detection with the command
    error, flex view written to 0 and not restored. *)
Theorem detectCalibrationPattern_estimate_failure (e : Ensenso) (samples level : Z)
        (flag : bool) (w w1 : World F) (t1 : tree_t) :
  bind (discardCalibrationPatterns device)
       (λ _, repeat_nx (Z.to_nat samples) (recordCalibrationPattern device e)) w
    = (Ok tt, w1) →
  tree w1 !! flex_view_item e = Some (VInt level) →
  0 < level →
  device cmdEstimatePatternPose ∅ (<[flex_view_item e := VInt 0]> (tree w1)) = (None, t1) →
  detectCalibrationPattern device e samples flag w =
    (Throw NxCommandError,
     mkWorld t1 (log w1 ++ [EvSet (flex_view_item e) (VInt 0);
                            EvExec cmdEstimatePatternPose ∅ None])).
Proof.
  intros Hrecorded Hlevel Hpos Hdev.
  apply bind_Ok in Hrecorded as (u0 & w0 & Hdiscard & Hrecorded).
  unfold detectCalibrationPattern. unfold bind at 1. rewrite Hdiscard.
  unfold bind at 1. rewrite Hrecorded.
  unfold bind at 1. rewrite flexView_sentinel, Hlevel.
  apply Z.ltb_lt in Hpos. rewrite Hpos.
  unfold setFlexView. fold (flex_view_item e). nx_unfold. rewrite Hdev.
  by rewrite <- (assoc_L (++)).
Qed.

(** *** Images and point clouds *)

Context {Mat Cloud : Type}.
Variable toCvMat : tree_t → path → res Mat.
Variable toPointCloud : tree_t → path → res Cloud.

(** X15. Without a monocular camera [loadMonocularUeyeParameters] ends
    in a [runtime_error] before anything is sent to the device; with one
    it executes [LoadUEyeParameterSet] with the file name as its only
    parameter. *)
Theorem loadMonocularUeyeParameters_outcome (e : Ensenso) (file : string) (w : World F) :
  (monocular_camera e = None →
     ∃ what, loadMonocularUeyeParameters device e file w = (Ok (inl (RuntimeError what)), w)) ∧
  (is_Some (monocular_camera e) →
     let ps : tree_t := {[ [Name itmFilename] := VStr file ]} in
     loadMonocularUeyeParameters device e file w =
       (match (device cmdLoadUEyeParameterSet ps (tree w)).1 with
        | Some _ => Ok (inr tt)
        | None => Throw NxCommandError
        end,
        mkWorld (device cmdLoadUEyeParameterSet ps (tree w)).2
                (log w ++ [EvExec cmdLoadUEyeParameterSet ps
                             (device cmdLoadUEyeParameterSet ps (tree w)).1]))).
Proof.
  unfold loadMonocularUeyeParameters. split.
  - intros ->. eexists. reflexivity.
  - intros [m ->]. cbv zeta. nx_unfold. rewrite insert_empty.
    by destruct (device _ _ _) as [[result|] t'].
Qed.

(** X16. With a monocular camera, [loadIntensity] captures from that
    camera alone (when asked to capture), executes nothing else, and
    takes the image from the raw image of the monocular camera; the
    outcome of the capture is not looked at. *)
Theorem loadIntensity_monocular (e : Ensenso) (m : path) (capture : bool)
        (w w' : World F) (image : Mat) :
  monocular_camera e = Some m →
  loadIntensity device toCvMat e capture w = (Ok image, w') →
  (if capture
   then ∃ b, retrieve device e true 1500 false true w = (Ok b, w')
   else w' = w) ∧
  toCvMat (tree w') (m ++ [Name itmImages; Name itmRaw]) = Ok image.
Proof.
  intros Hm Hrun. unfold loadIntensity in Hrun. rewrite Hm in Hrun.
  rewrite bool_decide_eq_true_2 in Hrun by eauto. cbn [negb] in Hrun.
  apply bind_Ok in Hrun as (u & w1 & Hcapture & Hrun).
  apply getNx_Ok in Hrun as [Himage ->].
  split; [|done]. destruct capture.
  - apply bind_Ok in Hcapture as (b & w2 & Hretrieve & Hret).
    apply ret_Ok in Hret as [_ ->]. eauto.
  - by apply ret_Ok in Hcapture as [_ ->].
Qed.

(** X17. Without a monocular camera, [loadIntensity] captures from the
    stereo camera alone (when asked to capture), then executes
    [RectifyImages] for the stereo camera, and takes the image from the
    rectified left image. *)
Theorem loadIntensity_stereo (e : Ensenso) (capture : bool) (w w' : World F) (image : Mat) :
  monocular_camera e = None →
  loadIntensity device toCvMat e capture w = (Ok image, w') →
  ∃ w1 s r,
    (if capture
     then ∃ b, retrieve device e true 1500 true false w = (Ok b, w1)
     else w1 = w) ∧
    as_string (tree w1) (serial_item (ensenso_camera e)) = Ok s ∧
    device cmdRectifyImages {[ [Name itmCameras; Idx 0] := VStr s ]} (tree w1)
      = (Some r, tree w') ∧
    log w' = log w1 ++ [EvExec cmdRectifyImages {[ [Name itmCameras; Idx 0] := VStr s ]}
                          (Some r)] ∧
    toCvMat (tree w')
            (ensenso_camera e ++ [Name itmImages; Name itmRectified; Name itmLeft])
      = Ok image.
Proof.
  intros Hm Hrun. unfold loadIntensity in Hrun. rewrite Hm in Hrun.
  rewrite bool_decide_eq_false_2 in Hrun by (by intros [? ?]). cbn [negb] in Hrun.
  apply bind_Ok in Hrun as (u & w1 & Hcapture & Hrun).
  assert (if capture
          then ∃ b, retrieve device e true 1500 true false w = (Ok b, w1)
          else w1 = w) as Hcap.
  { destruct capture.
    - apply bind_Ok in Hcapture as (b & w2 & Hretrieve & Hret).
      apply ret_Ok in Hret as [_ ->]. eauto.
    - by apply ret_Ok in Hcapture as [_ ->]. }
  clear Hcapture. unfold rectifyImages in Hrun. nx_inv. rewrite insert_empty in *.
  eexists _, _, _. split; [exact Hcap|]. by eauto.
Qed.

(** X18. A [loadPointCloud] that returns has, in this order, captured
    from both cameras if asked to (whatever the capture reported),
    applied the region of interest, read the serial number once, and
    executed [ComputeDisparityMap] and [ComputePointMap] for that one
    serial number; the cloud is the point map of the stereo camera. *)
Theorem loadPointCloud_run (e : Ensenso) (roi : Rect) (capture : bool)
        (w w' : World F) (cloud : Cloud) :
  loadPointCloud device toPointCloud e roi capture w = (Ok cloud, w') →
  ∃ w1 w2 s r1 t1 r2,
    (if capture
     then ∃ b, retrieve device e true 1500 true true w = (Ok b, w1)
     else w1 = w) ∧
    setRegionOfInterest e roi w1 = (Ok tt, w2) ∧
    as_string (tree w2) (serial_item (ensenso_camera e)) = Ok s ∧
    device cmdComputeDisparityMap {[ [Name itmCameras] := VStr s ]} (tree w2)
      = (Some r1, t1) ∧
    device cmdComputePointMap {[ [Name itmCameras] := VStr s ]} t1 = (Some r2, tree w') ∧
    log w' = log w2
      ++ [EvExec cmdComputeDisparityMap {[ [Name itmCameras] := VStr s ]} (Some r1);
          EvExec cmdComputePointMap {[ [Name itmCameras] := VStr s ]} (Some r2)] ∧
    toPointCloud (tree w') (ensenso_camera e ++ [Name itmImages; Name itmPointMap])
      = Ok cloud.
Proof.
  intros Hrun. unfold loadPointCloud in Hrun.
  apply bind_Ok in Hrun as (u & w1 & Hcapture & Hrun).
  apply bind_Ok in Hrun as ([] & w2 & Hroi & Hrun).
  assert (if capture
          then ∃ b, retrieve device e true 1500 true true w = (Ok b, w1)
          else w1 = w) as Hcap.
  { destruct capture.
    - apply bind_Ok in Hcapture as (b & w3 & Hretrieve & Hret).
      apply ret_Ok in Hret as [_ ->]. eauto.
    - by apply ret_Ok in Hcapture as [_ ->]. }
  clear Hcapture. nx_inv. rewrite insert_empty in *.
  eexists _, _, _, _, _, _. split; [exact Hcap|].
  split; [exact Hroi|]. split; [eassumption|]. split; [eassumption|].
  split; [eassumption|]. split; [|done].
  by rewrite <- (assoc_L (++)).
Qed.

(** X19. A [loadRegisteredPointCloud] that returns has rendered the
    point map for the serial number of the monocular camera, or for the
    empty string when there is none, with [Near] at 1, after switching
    [UseOpenGL] off at the root; the cloud is the rendered point map of
    the root, not an image of a camera. *)
Theorem loadRegisteredPointCloud_run (e : Ensenso) (roi : Rect) (capture : bool)
        (w w' : World F) (cloud : Cloud) :
  loadRegisteredPointCloud device toPointCloud e roi capture w = (Ok cloud, w') →
  ∃ t1 ms r2,
    let opengl := root e ++ [Name itmParameters; Name itmRenderPointMap; Name itmUseOpenGL] in
    let ps : tree_t := <[[Name itmCamera] := VStr ms]> (<[[Name itmNear] := VInt 1]> ∅) in
    match monocular_camera e with
    | Some m => as_string t1 (serial_item m) = Ok ms
    | None => ms = ""%string
    end ∧
    device cmdRenderPointMap ps (<[opengl := VBool false]> t1) = (Some r2, tree w') ∧
    (∃ before, log w' = before ++ [EvSet opengl (VBool false);
                                   EvExec cmdRenderPointMap ps (Some r2)]) ∧
    toPointCloud (tree w') (root e ++ [Name itmImages; Name itmRenderPointMap]) = Ok cloud.
Proof.
  intros Hrun. unfold loadRegisteredPointCloud, monocularSerialNumber in Hrun.
  apply bind_Ok in Hrun as (u & w1 & Hcapture & Hrun).
  apply bind_Ok in Hrun as ([] & w2 & Hroi & Hrun).
  nx_inv.
  all: eexists _, _, _; cbv zeta.
  all: (split; [first [eassumption|reflexivity]|]).
  all: (split; [eassumption|]).
  all: (split; [|done]).
  all: eexists; rewrite <- (assoc_L (++)); reflexivity.
Qed.

End DriverProperties.

(** * Concrete runs *)

(** The scripted session answers a capture of both cameras with [true],
    and both cameras report [Retrieved] in the result. *)
Lemma retrieve_outcome_witness :
  ∃ ps result,
    log Bench.after_retrieve = [EvExec cmdCapture ps (Some result)] ∧
    reports (tree Bench.after_retrieve) result itmRetrieved Bench.stereo_item ∧
    reports (tree Bench.after_retrieve) result itmRetrieved Bench.mono_item.
Proof.
  destruct (retrieve_outcome Bench.device Bench.session true 1500 true true Bench.fresh)
    as (_ & _ & Hrun).
  destruct (Hrun true Bench.after_retrieve (or_introl eq_refl))
    as (ps & result & Hlog & Hall & _); [vm_compute; reflexivity|].
  destruct (Hall eq_refl) as [Hstereo Hmono].
  destruct (Hmono eq_refl) as (m & [= <-] & Hm).
  exists ps, result. split; [exact Hlog|]. split; [exact (Hstereo eq_refl)|exact Hm].
Defined.

(** A trigger of both cameras names the stereo camera first. *)
Lemma camera_index_order_witness :
  camera_order Bench.session true (tree Bench.fresh) Bench.both_cameras.
Proof.
  apply (camera_index_order Bench.device Bench.session true 1500 true true Bench.fresh
           [EvExec cmdTrigger Bench.both_cameras
                   (Some (Bench.report itmTriggered Bench.both_cameras))]
           cmdTrigger Bench.both_cameras
           (Some (Bench.report itmTriggered Bench.both_cameras))).
  - left. vm_compute. reflexivity.
  - apply list_elem_of_singleton. reflexivity.
  - vm_compute. reflexivity.
Defined.

(** Without a secondary camera, a trigger of the secondary camera alone
    still runs an empty [Trigger] command. *)
Lemma trigger_without_cameras_witness :
  trigger Bench.device Bench.stereo_only false true Bench.fresh
  = (Ok true, mkWorld (tree Bench.fresh) [EvExec cmdTrigger ∅ (Some ∅)]) ∧
  retrieve Bench.device Bench.stereo_only true 1500 false true Bench.fresh
  = (Ok true, Bench.fresh).
Proof.
  destruct (trigger_without_cameras Bench.device Bench.stereo_only true 1500 true
              Bench.fresh) as [Htrigger Hretrieve]; [vm_compute; reflexivity|].
  split; [|exact Hretrieve].
  rewrite Htrigger. vm_compute. reflexivity.
Defined.

(** The region [(10,20) - (110,100)]. *)
Lemma setRegionOfInterest_effect_witness :
  ∃ w1,
    setRegionOfInterest Bench.session (mkRect 10 20 100 80) Bench.fresh = (Ok tt, w1) ∧
    tree w1 !! use_aoi_item Bench.session = Some (VBool true) ∧
    tree w1 !! (aoi_item Bench.session ++ [Name itmLeftTop; Idx 0]) = Some (VInt 10) ∧
    tree w1 !! (aoi_item Bench.session ++ [Name itmLeftTop; Idx 1]) = Some (VInt 20) ∧
    tree w1 !! (aoi_item Bench.session ++ [Name itmRightBottom; Idx 0]) = Some (VInt 110) ∧
    tree w1 !! (aoi_item Bench.session ++ [Name itmRightBottom; Idx 1]) = Some (VInt 100).
Proof.
  apply (proj2 (setRegionOfInterest_effect Bench.session (mkRect 10 20 100 80) Bench.fresh)).
  vm_compute. discriminate.
Defined.

(** Three robot poses and both guesses: what reaches the solver, in
    millimeters, and what comes back, in meters. *)
Lemma computeCalibration_units_witness :
  (∃ ps r,
     log Bench.after_calibration = [EvExec cmdCalibrateHandEye ps r] ∧
     ps !! [Name itmLink]
     = Some (VPose (mkIso (mkVec (Bench.q 1) (Bench.q 0) (Bench.q 0))
                          (mkVec (Bench.q 0) (Bench.q 1) (Bench.q 0))
                          (mkVec (Bench.q 0) (Bench.q 0) (Bench.q 1))
                          (mkVec (Bench.q 0) (Bench.q 0) (Bench.q 0)))) ∧
     ps !! [Name itmPatternPose]
     = Some (VPose (mkIso (mkVec (Bench.q 1) (Bench.q 0) (Bench.q 0))
                          (mkVec (Bench.q 0) (Bench.q 1) (Bench.q 0))
                          (mkVec (Bench.q 0) (Bench.q 0) (Bench.q 1))
                          (mkVec (Bench.q 10000) (Bench.q 20000) (Bench.q 500000)))) ∧
     ps !! [Name itmTransformations; Idx 1]
     = Some (VPose (mkIso (mkVec (Bench.q 0) (Bench.q (-1)) (Bench.q 0))
                          (mkVec (Bench.q 1) (Bench.q 0) (Bench.q 0))
                          (mkVec (Bench.q 0) (Bench.q 0) (Bench.q 1))
                          (mkVec (Bench.q 100000) (Bench.q 200000) (Bench.q 300000))))) ∧
  tree Bench.after_calibration !! link_item Bench.session = Some (VPose Bench.link_mm) ∧
  camera_pose Bench.solved
  = mkIso (mkVec (Bench.q 0) (Bench.q 1) (Bench.q 0))
          (mkVec (Bench.q (-1)) (Bench.q 0) (Bench.q 0))
          (mkVec (Bench.q 0) (Bench.q 0) (Bench.q 1))
          (mkVec (QArith_base.Qmake (-200) 1000) (QArith_base.Qmake 100 1000)
                 (QArith_base.Qmake (-300) 1000)) ∧
  pattern_pose Bench.solved
  = mkIso (mkVec (Bench.q 1) (Bench.q 0) (Bench.q 0))
          (mkVec (Bench.q 0) (Bench.q 1) (Bench.q 0))
          (mkVec (Bench.q 0) (Bench.q 0) (Bench.q 1))
          (mkVec (QArith_base.Qmake 10 1000) (QArith_base.Qmake 20 1000)
                 (QArith_base.Qmake 500 1000)).
Proof.
  destruct (computeCalibration_units Bench.device Bench.session Bench.robot_poses true
              (Some Bench.identity) (Some Bench.pattern_mm) "Hand" Bench.fresh)
    as [(ps & r & Hlog & Hcamera & Hpattern & Hposes) Hback].
  split.
  - exists ps, r. split; [exact Hlog|]. split; [exact (Hcamera _ eq_refl)|].
    split; [exact (Hpattern _ eq_refl)|]. exact (Hposes 1%nat Bench.link_mm eq_refl).
  - destruct (Hback Bench.solved)
      as (ps' & result & link & pattern & Hrun & Hlink & Hpat & _ & _ & Hc & Hp);
      [vm_compute; reflexivity|].
    assert (link = Bench.link_mm) as ->.
    { vm_compute in Hlink. injection Hlink as <-. vm_compute. reflexivity. }
    assert (pattern = Bench.pattern_mm) as ->.
    { vm_compute in Hrun. injection Hrun as _ <-.
      vm_compute in Hpat. injection Hpat as <-. vm_compute. reflexivity. }
    split; [exact Hlink|]. split; [exact Hc|exact Hp].
Defined.

(** C1, refuted: called without any robot pose, [computeCalibration] runs
    the solver command all the same and hands back its result. *)
Lemma computeCalibration_without_poses :
  (computeCalibration Bench.device Bench.session [] false None None "" Bench.fresh).1
  = Ok Bench.solved ∧
  log (computeCalibration Bench.device Bench.session [] false None None "" Bench.fresh).2
  = [EvExec cmdCalibrateHandEye {[ [Name itmSetup] := VStr valFixed ]}
       (Bench.device cmdCalibrateHandEye {[ [Name itmSetup] := VStr valFixed ]}
                     (tree Bench.fresh)).1].
Proof. split; vm_compute; reflexivity. Qed.

Lemma computeCalibration_always_invokes_solver_witness :
  ∃ ps r,
    log (computeCalibration Bench.device Bench.session [Bench.identity] false None None ""
           Bench.fresh).2 = [EvExec cmdCalibrateHandEye ps r] ∧
    is_Some (ps !! [Name itmTransformations; Idx 0]) ∧
    ¬ is_Some (ps !! [Name itmTransformations; Idx 1]).
Proof.
  destruct (computeCalibration_always_invokes_solver Bench.device Bench.session
              [Bench.identity] false None None "" Bench.fresh) as (ps & Hlog & Hposes & _).
  exists ps, (Bench.device cmdCalibrateHandEye ps (tree Bench.fresh)).1.
  split; [exact Hlog|]. split.
  - apply Hposes. cbn. lia.
  - intros Hsome. apply Hposes in Hsome. cbn in Hsome. lia.
Defined.

(** One recording with flex view at level 4. *)
Lemma recordCalibrationPattern_sequence_witness :
  ∃ s1 s2 r1 r2,
    log Bench.after_record =
      [EvSet (flex_view_item Bench.session) (VInt 0);
       EvSet (projector_item Bench.session) (VBool false);
       EvSet (front_light_item Bench.session) (VBool true);
       EvExec cmdCapture (<[[Name itmCameras; Idx 0] := VStr s1]>
                          (<[[Name itmTimeout] := VInt 1500]> ∅)) (Some r1);
       EvSet (front_light_item Bench.session) (VBool false);
       EvSet (projector_item Bench.session) (VBool true);
       EvExec cmdCollectPattern (<[[Name itmDecodeData] := VBool true]>
                                 (<[[Name itmCameras] := VStr s2]> ∅)) (Some r2);
       EvSet (flex_view_item Bench.session) (VInt 4)].
Proof.
  destruct (recordCalibrationPattern_sequence Bench.device Bench.session Bench.fresh
              Bench.after_record) as (s1 & s2 & r1 & r2 & t1 & _ & _ & _ & Hlog);
    [vm_compute; reflexivity|].
  exists s1, s2, r1, r2. exact Hlog.
Defined.

(** Two samples on a camera with a workspace calibration, with
    compensation: the pattern at [(10, 20, 500)] millimeters in the camera
    frame is found at [(0.08, 0.21, 0.8)] meters in the workspace frame of
    the link, turned as the link is. *)
Lemma detectCalibrationPattern_result_witness :
  detectCalibrationPattern Bench.device Bench.session 2 true Bench.calibrated
  = (Ok (mkIso (mkVec (Bench.q 0) (Bench.q (-1)) (Bench.q 0))
               (mkVec (Bench.q 1) (Bench.q 0) (Bench.q 0))
               (mkVec (Bench.q 0) (Bench.q 0) (Bench.q 1))
               (mkVec (QArith_base.Qmake 80000000000 1000000000000)
                      (QArith_base.Qmake 210000000000 1000000000000)
                      (QArith_base.Qmake 800000000000 1000000000000))),
     Bench.after_detect) ∧
  ∃ (recs : list (event QArith_base.Q)) raw link,
    executions cmdCollectPattern recs = 2%nat ∧
    tree Bench.after_detect !! link_item Bench.session = Some (VPose link) ∧
    Bench.detected = compose (scale_translation s_0_001 link) (scale_translation s_0_001 raw).
Proof.
  assert (detectCalibrationPattern Bench.device Bench.session 2 true Bench.calibrated
          = (Ok Bench.detected, Bench.after_detect)) as Hrun by (vm_compute; reflexivity).
  split; [exact Hrun|].
  destruct (detectCalibrationPattern_result Bench.device Bench.session 2 true
              Bench.calibrated Bench.after_detect Bench.detected Hrun)
    as (r0 & recs & pre & result & post & raw & _ & Hcount & _ & _ & _ & _ & _ & Hon).
  destruct (Hon eq_refl) as (link & Hlink & Hpose); [vm_compute; discriminate|].
  exists recs, raw, link. split; [exact Hcount|]. split; [exact Hlink|exact Hpose].
Defined.

(** Clearing the workspace of the calibrated session, without storing. *)
Lemma clearWorkspaceCalibration_effect_witness :
  ∃ s2, workspace_frame Bench.session (tree Bench.after_clear) = s2 +:+ "_frame".
Proof.
  destruct (clearWorkspaceCalibration_effect Bench.device Bench.session false
              Bench.calibrated) as [_ Hclear].
  destruct (Hclear ltac:(vm_compute; discriminate) Bench.after_clear)
    as (s1 & r1 & t1 & s2 & persisted & _ & _ & _ & _ & Hkeep & _);
    [vm_compute; reflexivity|].
  exists s2. exact (proj2 (Hkeep eq_refl)).
Defined.

(** C7. On the calibrated session, [clearWorkspaceCalibration] returns
    and leaves the frame name it has just written, the serial number
    followed by [_frame]; that name is not empty, so
    [getWorkspaceCalibration] does not yield nothing afterwards but the
    link transform, in meters. *)
Lemma clearWorkspaceCalibration_leaves_workspace :
  clearWorkspaceCalibration Bench.device Bench.session false Bench.calibrated
  = (Ok tt, Bench.after_clear) ∧
  workspace_frame Bench.session (tree Bench.after_clear) = "150534_frame"%string ∧
  getWorkspaceCalibration Bench.session Bench.after_clear
  = (Ok (Some (mkIso (mkVec (Bench.q 0) (Bench.q (-1)) (Bench.q 0))
                     (mkVec (Bench.q 1) (Bench.q 0) (Bench.q 0))
                     (mkVec (Bench.q 0) (Bench.q 0) (Bench.q 1))
                     (mkVec (QArith_base.Qmake 100 1000) (QArith_base.Qmake 200 1000)
                            (QArith_base.Qmake 300 1000)))),
     Bench.after_clear) ∧
  (getWorkspaceCalibration Bench.session Bench.after_clear).1 ≠ Ok None.
Proof.
  split; [vm_compute; reflexivity|]. split; [vm_compute; reflexivity|].
  split; [vm_compute; reflexivity|]. vm_compute. discriminate.
Qed.

(** The inverse of the bench link: rotation transposed, translation
    carried back. *)
Example inverse_link :
  inverse Bench.link_mm
  = mkIso (mkVec (Bench.q 0) (Bench.q 1) (Bench.q 0))
          (mkVec (Bench.q (-1)) (Bench.q 0) (Bench.q 0))
          (mkVec (Bench.q 0) (Bench.q 0) (Bench.q 1))
          (mkVec (Bench.q (-200)) (Bench.q 100) (Bench.q (-300))).
Proof. vm_compute. reflexivity. Qed.

(** Setting a workspace and clearing it again leaves the frame name the
    driver writes last. *)
Example set_then_clear_workspace :
  workspace_frame Bench.session
    (tree (clearWorkspaceCalibration Bench.device Bench.session false
             (setWorkspaceCalibration Bench.device Bench.session Bench.link_mm "Workspace"
                Bench.identity false Bench.fresh).2).2)
  = "150534_frame"%string.
Proof. vm_compute. reflexivity. Qed.

(** With the flag off and no workspace calibration the detected pose is
    the estimate in meters. *)
Example detect_without_compensation :
  (detectCalibrationPattern Bench.device Bench.session 5 false Bench.fresh).1
  = Ok (scale_translation s_0_001 Bench.pattern_mm).
Proof. vm_compute. reflexivity. Qed.

(** * Further concrete runs *)

Lemma trigger_outcome_witness :
  ∃ ps result,
    log Bench.after_trigger = [EvExec cmdTrigger ps (Some result)] ∧
    reports (tree Bench.after_trigger) result itmTriggered Bench.stereo_item.
Proof.
  destruct (trigger_outcome Bench.device Bench.session true true Bench.fresh
              Bench.after_trigger true) as (ps & result & Hlog & Hall & _);
    [reflexivity|].
  exists ps, result. split; [exact Hlog|]. exact (proj1 (Hall eq_refl) eq_refl).
Defined.

(** The timeout [2^32 - 1] reaches the device as [-1]. *)
Lemma retrieve_command_witness :
  Bench.capture_both !! [Name itmTimeout] = Some (VInt (int_of_unsigned 4294967295)) ∧
  int_of_unsigned 4294967295 = -1.
Proof.
  destruct (retrieve_command Bench.device Bench.session true 4294967295 true true
              Bench.fresh
              [EvExec cmdCapture Bench.capture_both
                 (Some (Bench.report itmRetrieved Bench.capture_both))]
              cmdCapture Bench.capture_both
              (Some (Bench.report itmRetrieved Bench.capture_both)))
    as (_ & Hps & _ & Hlarge).
  - reflexivity.
  - apply list_elem_of_singleton. reflexivity.
  - split; [exact Hps|]. destruct Hlarge as [Heq _]; [lia|]. rewrite Heq. reflexivity.
Defined.

Lemma recordCalibrationPattern_restores_flex_view_witness :
  flexView Bench.session Bench.after_record = (Ok 4, Bench.after_record).
Proof.
  apply (recordCalibrationPattern_restores_flex_view Bench.device Bench.session 4
           Bench.fresh Bench.after_record).
  - reflexivity.
  - lia.
  - reflexivity.
Defined.

Lemma recordCalibrationPattern_illumination_witness :
  ∃ ps1 r1 t0 t1,
    Bench.device cmdCapture ps1 t0 = (Some r1, t1) ∧
    EvExec cmdCapture ps1 (Some r1) ∈ log Bench.after_record ∧
    t0 !! projector_item Bench.session = Some (VBool false) ∧
    t0 !! front_light_item Bench.session = Some (VBool true).
Proof.
  destruct (recordCalibrationPattern_illumination Bench.device Bench.session Bench.fresh
              Bench.after_record)
    as (ps1 & r1 & t0 & t1 & _ & _ & _ & _ & Hdev & Hin & Hp & Hl & _);
    [reflexivity|].
  exists ps1, r1, t0, t1. split; [exact Hdev|]. split; [exact Hin|]. split; [exact Hp|exact Hl].
Defined.

Lemma recordCalibrationPattern_capture_failure_witness :
  (recordCalibrationPattern Bench.no_capture Bench.session Bench.fresh).1
  = Throw NxCommandError.
Proof.
  rewrite (recordCalibrationPattern_capture_failure Bench.no_capture Bench.session
             "150534" Bench.at_capture Bench.fresh).
  - reflexivity.
  - reflexivity.
  - reflexivity.
Defined.

(** A region of width zero away from the origin. *)
Lemma setRegionOfInterest_degenerate_witness :
  ∃ w', setRegionOfInterest Bench.session (mkRect 10 20 0 50) Bench.fresh = (Ok tt, w') ∧
        tree w' !! use_aoi_item Bench.session = Some (VBool false).
Proof.
  destruct (setRegionOfInterest_degenerate Bench.session (mkRect 10 20 0 50) Bench.fresh
              (or_introl eq_refl)) as (w' & Hrun & Hflag & _).
  exists w'. split; [exact Hrun|exact Hflag].
Defined.

(** Setting a region leaves the flex view level of the camera at 4. *)
Lemma setRegionOfInterest_frame_witness :
  tree (setRegionOfInterest Bench.session (mkRect 10 20 100 80) Bench.fresh).2
    !! flex_view_item Bench.session = Some (VInt 4).
Proof.
  rewrite (setRegionOfInterest_frame Bench.session (mkRect 10 20 100 80) Bench.fresh
             (flex_view_item Bench.session)).
  - reflexivity.
  - intros H. vm_compute in H. discriminate H.
  - intros [k Hk]. vm_compute in Hk. discriminate Hk.
Defined.

(** A bench link at [(100, 200, 300)] meters reaches the command at
    [(100000, 200000, 300000)] millimeters, turned as it was. *)
Lemma setWorkspaceCalibration_command_witness :
  ∃ ps r stored,
    log Bench.after_set_workspace = [EvExec cmdCalibrateWorkspace ps (Some r)] ++ stored ∧
    ps !! [Name itmPatternPose]
    = Some (VPose (mkIso (mkVec (Bench.q 0) (Bench.q (-1)) (Bench.q 0))
                         (mkVec (Bench.q 1) (Bench.q 0) (Bench.q 0))
                         (mkVec (Bench.q 0) (Bench.q 0) (Bench.q 1))
                         (mkVec (Bench.q 100000) (Bench.q 200000) (Bench.q 300000)))) ∧
    ps !! [Name itmTarget] = Some (VStr "Workspace") ∧
    length stored = 1%nat.
Proof.
  destruct (setWorkspaceCalibration_command Bench.device Bench.session Bench.link_mm
              Bench.identity "Workspace" true Bench.fresh Bench.after_set_workspace)
    as (s & ps & r & stored & _ & Hlog & _ & Hpose & _ & Htarget & _ & Hstore);
    [reflexivity|].
  exists ps, r, stored. split; [exact Hlog|]. split; [exact Hpose|]. split; [exact Htarget|].
  destruct (Hstore eq_refl) as (s' & r' & ->). reflexivity.
Defined.

Lemma clearWorkspaceCalibration_twice_witness :
  ∃ ps r rest,
    log (clearWorkspaceCalibration Bench.device Bench.session false Bench.after_clear).2
    = log Bench.after_clear ++ EvExec cmdCalibrateWorkspace ps r :: rest.
Proof.
  apply (clearWorkspaceCalibration_twice Bench.device Bench.session false Bench.calibrated).
  - vm_compute. discriminate.
  - reflexivity.
Defined.

Lemma detectCalibrationPattern_without_samples_witness :
  executions cmdCapture
    (log (detectCalibrationPattern Bench.device Bench.session (-3) false Bench.fresh).2)
  = 0%nat.
Proof.
  apply (detectCalibrationPattern_without_samples Bench.device Bench.session (-3) false
           Bench.fresh).
  - lia.
  - reflexivity.
Defined.

Lemma loadIntensity_monocular_witness :
  Bench.toCvMat (tree Bench.after_intensity)
                (Bench.mono_item ++ [Name itmImages; Name itmRaw]) = Ok 7.
Proof.
  apply (loadIntensity_monocular Bench.device Bench.toCvMat Bench.session Bench.mono_item
           true Bench.imaging Bench.after_intensity 7).
  - reflexivity.
  - reflexivity.
Defined.

Lemma loadIntensity_stereo_witness :
  ∃ s r,
    EvExec cmdRectifyImages {[ [Name itmCameras; Idx 0] := VStr s ]} (Some r)
      ∈ log Bench.after_stereo_intensity ∧
    Bench.toCvMat (tree Bench.after_stereo_intensity)
      (Bench.stereo_item ++ [Name itmImages; Name itmRectified; Name itmLeft]) = Ok 5.
Proof.
  destruct (loadIntensity_stereo Bench.device Bench.toCvMat Bench.stereo_only true
              Bench.imaging Bench.after_stereo_intensity 5)
    as (w1 & s & r & _ & _ & _ & Hlog & Himage);
    [reflexivity | reflexivity |].
  exists s, r. split; [|exact Himage].
  rewrite Hlog. apply elem_of_app. right. apply list_elem_of_singleton. reflexivity.
Defined.

Lemma loadPointCloud_run_witness :
  ∃ w2 s r1 r2,
    log Bench.after_cloud = log w2
      ++ [EvExec cmdComputeDisparityMap {[ [Name itmCameras] := VStr s ]} (Some r1);
          EvExec cmdComputePointMap {[ [Name itmCameras] := VStr s ]} (Some r2)] ∧
    Bench.toPointCloud (tree Bench.after_cloud)
      (Bench.stereo_item ++ [Name itmImages; Name itmPointMap]) = Ok 9.
Proof.
  destruct (loadPointCloud_run Bench.device Bench.toPointCloud Bench.session
              (mkRect 0 0 100 80) true Bench.imaging Bench.after_cloud 9)
    as (w1 & w2 & s & r1 & t1 & r2 & _ & _ & _ & _ & _ & Hlog & Hcloud);
    [reflexivity|].
  exists w2, s, r1, r2. split; [exact Hlog|exact Hcloud].
Defined.

(** Without a monocular camera the point map is rendered for the empty
    serial number. *)
Lemma loadRegisteredPointCloud_run_witness :
  ∃ t1 r2,
    Bench.device cmdRenderPointMap
      (<[[Name itmCamera] := VStr ""]> (<[[Name itmNear] := VInt 1]> ∅))
      (<[[Name itmParameters; Name itmRenderPointMap; Name itmUseOpenGL] := VBool false]> t1)
    = (Some r2, tree Bench.after_registered) ∧
    Bench.toPointCloud (tree Bench.after_registered)
      [Name itmImages; Name itmRenderPointMap] = Ok 11.
Proof.
  destruct (loadRegisteredPointCloud_run Bench.device Bench.toPointCloud Bench.stereo_only
              (mkRect 0 0 0 0) false Bench.imaging Bench.after_registered 11)
    as (t1 & ms & r2 & Hms & Hdev & _ & Hcloud); [reflexivity|].
  cbn in Hms. subst ms. exists t1, r2. split; [exact Hdev|exact Hcloud].
Defined.

Lemma detectCalibrationPattern_estimate_failure_witness :
  (detectCalibrationPattern Bench.no_estimate Bench.session 1 false Bench.fresh).1
  = Throw NxCommandError.
Proof.
  rewrite (detectCalibrationPattern_estimate_failure Bench.no_estimate Bench.session 1 4
             false Bench.fresh Bench.after_recording
             (<[flex_view_item Bench.session := VInt 0]> (tree Bench.after_recording))).
  - reflexivity.
  - reflexivity.
  - reflexivity.
  - lia.
  - reflexivity.
Defined.
